(** * Dengue cases / rainfall index pipeline: a shallow embedding of
    [pipeline.py] and the properties of its record-level transforms.

    Conventions of the embedding.
    - A Python [str] is a Rocq [string]; a character is the code point it
      carries, so the strings covered are those over code points 0..255.
    - A Python [float] is an IEEE 754 binary64 value, written as a
      [spec_float] at precision 53 and maximal exponent 1024.
    - A Python exception is a value of [exn]; a call that may raise returns
      a [result].
    - A Python [dict] with string keys and values is a [gmap string string].
    - A Beam [PCollection] is the list of its elements.  Beam fixes no order
      on the elements; here a transform keeps the order of its input and a
      grouping lists the keys once each.  The statements below are about
      membership, counts and the element obtained from a given element. *)

From Stdlib Require Import ZArith String Ascii List Lia.
From Stdlib Require Import SpecFloat.
From stdpp Require Import base tactics option list gmap strings.

Local Open Scope Z_scope.
Local Open Scope list_scope.
Local Open Scope stdpp_scope.

(** ** Exceptions and results *)

Inductive exn : Type :=
  | ValueError
  | KeyError (key : string)
  | TypeError
  | IndexError
  | OverflowError.

Inductive result (A : Type) : Type :=
  | Ok (a : A)
  | Raise (e : exn).
Arguments Ok {A} a.
Arguments Raise {A} e.

#[export] Instance result_ret : MRet result := fun A a => Ok a.

#[export] Instance result_bind : MBind result := fun A B k r =>
  match r with
  | Ok a => k a
  | Raise e => Raise e
  end.

#[export] Instance result_fmap : FMap result := fun A B f r =>
  match r with
  | Ok a => Ok (f a)
  | Raise e => Raise e
  end.

Definition is_raise {A : Type} (r : result A) : bool :=
  match r with
  | Ok _ => false
  | Raise _ => true
  end.

(** A generator: what it yields, in order, and whether it returns or
    raises at the end. *)
Inductive generator (B : Type) : Type :=
  | Return
  | Yield (b : B) (g : generator B)
  | Throw (e : exn).
Arguments Return {B}.
Arguments Yield {B} b g.
Arguments Throw {B} e.

(** The generator that yields the values of [bs] and goes on as [g]. *)
Fixpoint yield_all {B : Type} (bs : list B) (g : generator B) : generator B :=
  match bs with
  | [] => g
  | b :: bs' => Yield b (yield_all bs' g)
  end.

(** Running a generator to its end: all its values, or its exception. *)
Fixpoint exhaust {B : Type} (g : generator B) : result (list B) :=
  match g with
  | Return => Ok []
  | Yield b g' => (fun l => b :: l) <$> exhaust g'
  | Throw e => Raise e
  end.

(** ** Python string primitives *)

Module Str.

(** [s.split(c)] for a one-character separator [c]. *)
Fixpoint split_chr (c : ascii) (s : string) : list string :=
  match s with
  | EmptyString => [EmptyString]
  | String a s' =>
      if Ascii.eqb a c then EmptyString :: split_chr c s'
      else match split_chr c s' with
           | h :: t => String a h :: t
           | [] => [String a EmptyString]
           end
  end.

(** The scan of [s.split(sep)] for a separator of any length: [skip]
    counts the characters of a matched separator still to pass over and
    [cur] is the field read so far. *)
Fixpoint split_from (sep : string) (skip : nat) (cur : string) (s : string)
  : list string :=
  match s with
  | EmptyString => [cur]
  | String a s' =>
      match skip with
      | S k => split_from sep k cur s'
      | O =>
          if String.prefix sep s
          then cur :: split_from sep (Nat.pred (String.length sep)) EmptyString s'
          else split_from sep O (cur +:+ String a EmptyString) s'
      end
  end.

(** [s.split(sep)]: an empty separator raises [ValueError]. *)
Definition split (sep : string) (s : string) : result (list string) :=
  match sep with
  | EmptyString => Raise ValueError
  | _ => Ok (split_from sep O EmptyString s)
  end.

(** [sep.join(l)]. *)
Definition join (sep : string) (l : list string) : string :=
  String.concat sep l.

(** [c in s]. *)
Fixpoint contains_chr (c : ascii) (s : string) : bool :=
  match s with
  | EmptyString => false
  | String a s' => Ascii.eqb a c || contains_chr c s'
  end.

End Str.

(** ** Record parser *)

Definition dengue_columns : list string :=
  [ "id"; "data_iniSE"; "casos"; "ibge_code"; "cidade"; "uf"; "cep";
    "latitude"; "longitude" ]%string.

(** [dict(pairs)]: pairs are stored from left to right, a later pair
    replacing an earlier one with the same key. *)
Definition py_dict (pairs : list (string * string)) : gmap string string :=
  fold_left (fun m kv => <[kv.1 := kv.2]> m) pairs ∅.

(** [dict(zip(columns, element))] *)
Definition list_to_dictionary (element columns : list string)
  : gmap string string :=
  py_dict (zip columns element).

(** [element.split(delimiter)] *)
Definition text_to_list (element delimiter : string) : result (list string) :=
  Str.split delimiter element.

(** [element['ano_mes'] = '-'.join(element['data_iniSE'].split('-')[:2])] *)
Definition transform_dates (element : gmap string string)
  : result (gmap string string) :=
  match element !! "data_iniSE"%string with
  | None => Raise (KeyError "data_iniSE")
  | Some d =>
      Ok (<["ano_mes"%string := Str.join "-" (take 2 (Str.split_chr "-" d))]> element)
  end.

(** [(element['uf'], element)] *)
Definition uf_key (element : gmap string string)
  : result (string * gmap string string) :=
  match element !! "uf"%string with
  | None => Raise (KeyError "uf")
  | Some key => Ok (key, element)
  end.

(** ** Python floats

    [float(s)], comparison, addition, [round(x, ndigits)] and [repr(x)] on
    binary64 values, following CPython: [PyFloat_FromString],
    [_Py_string_to_number_with_underscores], [float_from_string_inner],
    [_Py_dg_strtod], [_Py_parse_inf_or_nan], [float___round___impl] and
    [float_repr]. *)

Module PyFloat.

Definition prec : Z := 53.
Definition emax : Z := 1024.

Abbreviation float := spec_float.

(** [0.0] *)
Definition zero : float := S754_zero false.

(** [x + y] *)
Definition add (x y : float) : float := SFadd prec emax x y.

(** [x >= y] *)
Definition geb (x y : float) : bool := SFleb y x.

(** [x < y] *)
Definition ltb (x y : float) : bool := SFltb x y.

(** *** Character classes *)

Definition code (a : ascii) : Z := Z.of_N (N_of_ascii a).

Definition is_digit (a : ascii) : bool :=
  (48 <=? code a) && (code a <=? 57).

Definition digit_val (a : ascii) : Z := code a - 48.

(** [Py_ISSPACE]: space, [\t], [\n], [\v], [\f], [\r]. *)
Definition is_c_space (a : ascii) : bool :=
  ((9 <=? code a) && (code a <=? 13)) || (code a =? 32).

(** [Py_UNICODE_ISSPACE] on the code points 127..255: NEL and NBSP. *)
Definition is_unicode_space (a : ascii) : bool :=
  (code a =? 133) || (code a =? 160).

Definition to_lower (a : ascii) : ascii :=
  if (65 <=? code a) && (code a <=? 90)
  then ascii_of_N (Z.to_N (code a + 32)) else a.

(** *** [_PyUnicode_TransformDecimalAndSpaceToASCII]

    An ASCII string is returned as it is.  Otherwise code points below 127
    are kept, a Unicode space becomes a blank, a Unicode decimal digit
    becomes its ASCII digit (there is none among the code points
    127..255), and anything else becomes ['?'] and ends the string. *)

Fixpoint is_ascii_str (s : string) : bool :=
  match s with
  | EmptyString => true
  | String a s' => (code a <? 128) && is_ascii_str s'
  end.

Fixpoint transform_chars (s : string) : string :=
  match s with
  | EmptyString => EmptyString
  | String a s' =>
      if code a <? 127 then String a (transform_chars s')
      else if is_unicode_space a then String " " (transform_chars s')
      else String "?" EmptyString
  end.

Definition transform_decimal_and_space (s : string) : string :=
  if is_ascii_str s then s else transform_chars s.

(** *** [_Py_string_to_number_with_underscores]

    An underscore is accepted only between two digits; the string handed
    on has the underscores removed. *)

Fixpoint strip_underscores (prev : ascii) (s : string) : option string :=
  match s with
  | EmptyString => if Ascii.eqb prev "_" then None else Some EmptyString
  | String a s' =>
      if Ascii.eqb a "_" then
        if is_digit prev then strip_underscores a s' else None
      else if Ascii.eqb prev "_" && negb (is_digit a) then None
      else String a <$> strip_underscores a s'
  end.

Definition without_underscores (s : string) : option string :=
  if Str.contains_chr "_" s then strip_underscores Ascii.zero s else Some s.

(** *** Leading and trailing white space ([float_from_string_inner]) *)

Fixpoint lstrip (s : string) : string :=
  match s with
  | EmptyString => EmptyString
  | String a s' => if is_c_space a then lstrip s' else s
  end.

(** Called on a string whose first character is not white space, so that
    the C loop's guard [s < last - 1] never stops it early. *)
Fixpoint rstrip (s : string) : string :=
  match s with
  | EmptyString => EmptyString
  | String a s' =>
      match rstrip s' with
      | EmptyString => if is_c_space a then EmptyString else String a EmptyString
      | r => String a r
      end
  end.

(** *** Decimal to binary64, correctly rounded (round half to even) *)

(** Number of decimal digits of [m > 0], by repeated division; [fuel]
    bounds the count. *)
Fixpoint decimal_digits_fuel (fuel : nat) (m : Z) : Z :=
  match fuel with
  | O => 0
  | S k => if m <? 10 then 1 else 1 + decimal_digits_fuel k (m / 10)
  end.

Definition decimal_digits (m : Z) : Z :=
  decimal_digits_fuel (S (Z.to_nat (Z.log2 m))) m.

(** The binary64 value nearest to [(-1)^neg * m * 10^e10] for [m >= 0].
    Magnitudes of at least [10^309] overflow to an infinity and those
    below [10^-325] underflow to a zero; both tests only spare the
    computation of a huge power of ten. *)
Definition decimal_to_float (neg : bool) (m e10 : Z) : float :=
  if m <=? 0 then S754_zero neg
  else
    let nd := decimal_digits m in
    if 309 <=? nd - 1 + e10 then S754_infinity neg
    else if nd + e10 <=? -325 then S754_zero neg
    else if 0 <=? e10 then
      binary_round prec emax neg (Z.to_pos (m * 10 ^ e10)) 0
    else
      let '(q, e, l) := SFdiv_core_binary prec emax m 0 (10 ^ (- e10)) 0 in
      binary_round_aux prec emax neg q e l.

(** *** [_Py_dg_strtod]: the grammar
    [sign? digit* ('.' digit* )? ([eE] sign? digit+)?] with at least one
    digit before the exponent. *)

Definition MAX_DIGITS : Z := 1000000000.
Definition MAX_ABS_EXP : Z := 1100000000.

(** Reads a run of digits: the value of [acc] followed by the digits, how
    many were read, and the rest of the string. *)
Fixpoint scan_digits (acc : Z) (n : Z) (s : string) : Z * Z * string :=
  match s with
  | String a s' =>
      if is_digit a then scan_digits (10 * acc + digit_val a) (n + 1) s'
      else (acc, n, s)
  | EmptyString => (acc, n, s)
  end.

(** Skips a run of ['0']: how many were skipped, and the rest. *)
Fixpoint skip_zeros (n : Z) (s : string) : Z * string :=
  match s with
  | String a s' => if Ascii.eqb a "0" then skip_zeros (n + 1) s' else (n, s)
  | EmptyString => (n, s)
  end.

Definition scan_sign (s : string) : bool * string :=
  match s with
  | String "-" s' => (true, s')
  | String "+" s' => (false, s')
  | _ => (false, s)
  end.

(** The exponent part, read at the ['e']: the exponent and the rest of the
    string.  Without a digit the ['e'] is not consumed. *)
Definition scan_exponent (s : string) : Z * string :=
  match s with
  | String a s1 =>
      if Ascii.eqb a "e" || Ascii.eqb a "E" then
        let '(esign, s2) := scan_sign s1 in
        let '(lz, s3) := skip_zeros 0 s2 in
        let '(abs_exp, n, s4) := scan_digits 0 0 s3 in
        if (n =? 0) && (lz =? 0) then (0, s)
        else
          let e := if (9 <? n) || (MAX_ABS_EXP <? abs_exp)
                   then MAX_ABS_EXP else abs_exp in
          (if esign then - e else e, s4)
      else (0, s)
  | EmptyString => (0, s)
  end.

(** [Some (x, rest)] when a number was read, [None] on a parse error (the
    end pointer is left at the start of the string). *)
Definition strtod (s : string) : option (float * string) :=
  let '(sign, s1) := scan_sign s in
  let '(lz1, s2) := skip_zeros 0 s1 in
  let '(m1, n1, s3) := scan_digits 0 0 s2 in
  let '(m, ndigits, fraclen, lz, s5) :=
    match s3 with
    | String "." s4 =>
        if n1 =? 0 then
          let '(lz2, s4') := skip_zeros 0 s4 in
          let '(m2, n2, s5) := scan_digits 0 0 s4' in
          (m2, n2, lz2 + n2, lz1 + lz2, s5)
        else
          let '(m2, n2, s5) := scan_digits m1 0 s4 in
          (m2, n1 + n2, n2, lz1, s5)
    | _ => (m1, n1, 0, lz1, s3)
    end in
  if (ndigits =? 0) && (lz =? 0) then None
  else if (MAX_DIGITS <? ndigits) || (MAX_DIGITS <? fraclen) then None
  else
    let '(e, s6) := scan_exponent s5 in
    Some (decimal_to_float sign m (e - fraclen), s6).

(** *** [_Py_parse_inf_or_nan] *)

Fixpoint case_insensitive_match (s t : string) : option string :=
  match t with
  | EmptyString => Some s
  | String b t' =>
      match s with
      | String a s' =>
          if Ascii.eqb (to_lower a) b then case_insensitive_match s' t'
          else None
      | EmptyString => None
      end
  end.

Definition parse_inf_or_nan (s : string) : option (float * string) :=
  let '(negate, s1) := scan_sign s in
  match case_insensitive_match s1 "inf" with
  | Some s2 =>
      match case_insensitive_match s2 "inity" with
      | Some s3 => Some (S754_infinity negate, s3)
      | None => Some (S754_infinity negate, s2)
      end
  | None =>
      match case_insensitive_match s1 "nan" with
      | Some s2 => Some (S754_nan, s2)
      | None => None
      end
  end.

(** [_PyOS_ascii_strtod]: a number, or else an infinity or a NaN. *)
Definition ascii_strtod (s : string) : option (float * string) :=
  match strtod s with
  | Some r => Some r
  | None => parse_inf_or_nan s
  end.

(** *** [float(s)] for a string [s] *)
Definition of_string (s : string) : result float :=
  let t := transform_decimal_and_space s in
  if Str.contains_chr Ascii.zero t then Raise ValueError
  else
    match without_underscores t with
    | None => Raise ValueError
    | Some u =>
        match lstrip u with
        | EmptyString => Raise ValueError
        | v =>
            match ascii_strtod (rstrip v) with
            | Some (x, EmptyString) => Ok x
            | _ => Raise ValueError
            end
        end
    end.

(** *** [round(x, ndigits)] ([float___round___impl], [double_round])

    A finite [x] is rounded to [ndigits] decimal places on its exact
    value, half-way cases to the even digit, and the decimal obtained is
    read back as a binary64. *)

Definition NDIGITS_MAX : Z := 323.
Definition NDIGITS_MIN : Z := -308.

(** The integer nearest to [n / d], ties to even, for [0 <= n], [0 < d]. *)
Definition div_half_even (n d : Z) : Z :=
  let q := n / d in
  match 2 * (n mod d) ?= d with
  | Lt => q
  | Gt => q + 1
  | Eq => if Z.even q then q else q + 1
  end.

Definition round (x : float) (ndigits : Z) : result float :=
  match x with
  | S754_finite s m e =>
      if NDIGITS_MAX <? ndigits then Ok x
      else if ndigits <? NDIGITS_MIN then Ok (S754_zero s)
      else
        let num := Zpos m * 2 ^ Z.max e 0 * 10 ^ Z.max ndigits 0 in
        let den := 2 ^ Z.max (- e) 0 * 10 ^ Z.max (- ndigits) 0 in
        match decimal_to_float s (div_half_even num den) (- ndigits) with
        | S754_infinity _ => Raise OverflowError
        | r => Ok r
        end
  | _ => Ok x
  end.

(** *** [repr(x)], which is also [str(x)] ([float_repr],
    [format_float_short] with format code ['r'])

    The digits are the shortest decimal that reads back as [x], the one
    nearest to [x] when there are several. *)

Fixpoint Z_to_digits_fuel (fuel : nat) (m : Z) (acc : string) : string :=
  match fuel with
  | O => acc
  | S k =>
      let acc' := String (ascii_of_N (Z.to_N (48 + m mod 10))) acc in
      if m <? 10 then acc' else Z_to_digits_fuel k (m / 10) acc'
  end.

(** The decimal digits of [m >= 0]. *)
Definition Z_to_digits (m : Z) : string :=
  Z_to_digits_fuel (S (Z.to_nat (Z.log2 m))) m EmptyString.

(** The [k] with [10^(k-1) <= num/den < 10^k], for [0 < num], [0 < den]. *)
Definition decpt_of (num den : Z) : Z :=
  if den <=? num then decimal_digits (num / den)
  else 1 - decimal_digits ((den + num - 1) / num - 1).

Definition float_eqb (x y : float) : bool :=
  match x, y with
  | S754_finite s1 m1 e1, S754_finite s2 m2 e2 =>
      Bool.eqb s1 s2 && Pos.eqb m1 m2 && Z.eqb e1 e2
  | _, _ => false
  end.

(** The [n]-digit decimal [d * 10^(k-n)] that reads back as the positive
    [x = num/den], if there is one: the nearer of the two neighbours of
    [x] when it reads back, else the other when that one does. *)
Definition digits_at (x : float) (num den k n : Z) : option Z :=
  let num' := num * 10 ^ Z.max (n - k) 0 in
  let den' := den * 10 ^ Z.max (k - n) 0 in
  let lo := num' / den' in
  let hi := lo + 1 in
  let ok d := float_eqb (decimal_to_float false d (k - n)) x in
  let first_ok a b := if ok a then Some a else if ok b then Some b else None in
  match 2 * (num' mod den') ?= den' with
  | Lt => first_ok lo hi
  | Gt => first_ok hi lo
  | Eq => if Z.even lo then first_ok lo hi else first_ok hi lo
  end.

Fixpoint shortest_from (fuel : nat) (x : float) (num den k n : Z) : Z * Z :=
  match fuel with
  | O => (0, 0)
  | S f =>
      match digits_at x num den k n with
      | Some d => (d, k - n)
      | None => shortest_from f x num den k (n + 1)
      end
  end.

Fixpoint strip_zeros_fuel (fuel : nat) (d e : Z) : Z * Z :=
  match fuel with
  | O => (d, e)
  | S f => if (d mod 10 =? 0) && (0 <? d)
           then strip_zeros_fuel f (d / 10) (e + 1) else (d, e)
  end.

(** The shortest digit string of the positive finite [m * 2^e] and the
    position of the decimal point in front of which it stands:
    the value is [0.digits * 10^decpt]. *)
Definition shortest_digits (m : positive) (e : Z) : string * Z :=
  let num := Zpos m * 2 ^ Z.max e 0 in
  let den := 2 ^ Z.max (- e) 0 in
  let k := decpt_of num den in
  let '(d, e10) := shortest_from 17 (S754_finite false m e) num den k 1 in
  let '(d', e10') := strip_zeros_fuel 18 d e10 in
  let ds := Z_to_digits d' in
  (ds, Z.of_nat (String.length ds) + e10').

Fixpoint zeros (n : nat) : string :=
  match n with
  | O => EmptyString
  | S k => String "0" (zeros k)
  end.

Definition format_digits (ds : string) (decpt : Z) : string :=
  let len := Z.of_nat (String.length ds) in
  if (decpt <=? -4) || (16 <? decpt) then
    let ex := decpt - 1 in
    let mant := match ds with
                | String a EmptyString => ds
                | String a r => String a (String "." r)
                | EmptyString => ds
                end in
    let es := Z_to_digits (Z.abs ex) in
    mant +:+ "e" +:+ (if ex <? 0 then "-" else "+")
         +:+ (if Z.abs ex <? 10 then "0" +:+ es else es)
  else if decpt <=? 0 then
    "0." +:+ zeros (Z.to_nat (- decpt)) +:+ ds
  else if len <=? decpt then
    ds +:+ zeros (Z.to_nat (decpt - len)) +:+ ".0"
  else
    String.substring 0 (Z.to_nat decpt) ds +:+ "."
      +:+ String.substring (Z.to_nat decpt) (Z.to_nat (len - decpt)) ds.

Definition repr (x : float) : string :=
  match x with
  | S754_nan => "nan"
  | S754_infinity s => if s then "-inf" else "inf"
  | S754_zero s => if s then "-0.0" else "0.0"
  | S754_finite s m e =>
      let '(ds, decpt) := shortest_digits m e in
      (if s then "-" else "") +:+ format_digits ds decpt
  end.

(** [re.search(r'\d', s)] is a match: a decimal digit occurs in [s]. *)
Fixpoint has_digit (s : string) : bool :=
  match s with
  | EmptyString => false
  | String a s' => is_digit a || has_digit s'
  end.

End PyFloat.

(** ** Beam transforms

    A transform maps the list of the elements of its input to that of its
    output.  An exception raised by the function of a [Map], [FlatMap] or
    [Filter] fails the run. *)

Module Beam.

Section Elementwise.
Context {A B : Type}.

(** [beam.Map(f)] *)
Definition Map (f : A -> result B) (pc : list A) : result (list B) :=
  mapM f pc.

(** [beam.FlatMap(f)] for a generator function [f] *)
Definition FlatMap (f : A -> generator B) (pc : list A) : result (list B) :=
  (fun yields => concat yields) <$> mapM (fun a => exhaust (f a)) pc.

(** [beam.Filter(p)] *)
Fixpoint Filter (p : A -> result bool) (pc : list A) : result (list A) :=
  match pc with
  | [] => Ok []
  | a :: rest =>
      keep ← p a;
      kept ← Filter p rest;
      Ok (if keep : bool then a :: kept else kept)
  end.
End Elementwise.

Section Keyed.
Context {K : Type} `{EqDecision K} {V W : Type}.

(** The values paired with [k], in the order of the collection. *)
Definition values_of (k : K) (pc : list (K * V)) : list V :=
  (filter (fun kv => kv.1 = k) pc).*2.

(** The distinct keys of the collection. *)
Definition keys (pc : list (K * V)) : list K := remove_dups pc.*1.

(** [beam.GroupByKey()]: one element per distinct key, with all the
    values of that key. *)
Definition GroupByKey (pc : list (K * V)) : list (K * list V) :=
  (fun k => (k, values_of k pc)) <$> keys pc.

(** [beam.CombinePerKey(f)]: one element per distinct key, with [f] of
    the values of that key. *)
Definition CombinePerKey (f : list V -> W) (pc : list (K * V))
  : list (K * W) :=
  (fun kvs : K * list V => (kvs.1, f kvs.2)) <$> GroupByKey pc.
End Keyed.

(** [beam.CoGroupByKey()] applied to a dict of tagged collections: one
    element per key of the union of the collections' keys, pairing the key
    with a dict from every tag to the values of that key in the tagged
    collection (an empty list when the collection lacks the key). *)
Definition CoGroupByKey {V : Type} (inputs : list (string * list (string * V)))
  : list (string * gmap string (list V)) :=
  (fun k => (k, list_to_map ((fun tpc : string * list (string * V) =>
                                (tpc.1, values_of k tpc.2)) <$> inputs)))
    <$> remove_dups (concat ((fun tpc => tpc.2.*1) <$> inputs)).

End Beam.

(** ** The transforms of the pipeline *)

Import PyFloat (float).

(** [sum(values)]: starts from the integer [0] and adds from left to right;
    the sum of a non-empty list of floats is a float.  [CombinePerKey(sum)]
    hands [sum] the values of a key in an order that Beam does not fix;
    here it is the order of the collection. *)
Definition py_sum (values : list float) : float :=
  fold_left PyFloat.add values PyFloat.zero.

(** [str(v)] of the value of [d.get(k)], inside an f-string. *)
Definition format_get (v : option string) : string :=
  match v with
  | Some s => s
  | None => "None"
  end.

(** The loop [for d in data] of [dengue_cases] (pipeline.py, lines 71-75):
    [re.search] on a missing ['casos'] raises [TypeError]; with a digit
    found, the pair [(f"{uf}-{d.get('ano_mes')}", float(d.get('casos')))] is
    yielded, and [float] may raise; without one, the key with [0.0]. *)
Fixpoint dengue_cases_loop (uf : string) (data : list (gmap string string))
  : generator (string * float) :=
  match data with
  | [] => Return
  | d :: rest =>
      match d !! "casos"%string with
      | None => Throw TypeError
      | Some casos =>
          let key := uf +:+ "-" +:+ format_get (d !! "ano_mes"%string) in
          if PyFloat.has_digit casos then
            match PyFloat.of_string casos with
            | Ok x => Yield (key, x) (dengue_cases_loop uf rest)
            | Raise e => Throw e
            end
          else Yield (key, PyFloat.zero) (dengue_cases_loop uf rest)
      end
  end.

(** [dengue_cases] (lines 63-75), a generator over one group
    [(uf, data)]. *)
Definition dengue_cases (element : string * list (gmap string string))
  : generator (string * float) :=
  let '(uf, data) := element in
  dengue_cases_loop uf data.

(** [rain_key_uf_year_month] (lines 77-89): the unpacking
    [date, rainfall, uf = element] raises [ValueError] unless there are
    exactly three fields; [float(rainfall)] is evaluated for the test and
    again for the result. *)
Definition rain_key_uf_year_month (element : list string)
  : result (string * float) :=
  match element with
  | [date; rainfall; uf] =>
      let key := uf +:+ "-" +:+ Str.join "-" (take 2 (Str.split_chr "-" date)) in
      x ← PyFloat.of_string rainfall;
      if PyFloat.geb x PyFloat.zero then
        y ← PyFloat.of_string rainfall;
        Ok (key, y)
      else Ok (key, PyFloat.zero)
  | _ => Raise ValueError
  end.

(** [round_rainfall] (lines 91-100): [(key, round(float(rainfall), ndigits=6))];
    [float] of a float is that float. *)
Definition round_rainfall (element : string * float) : result (string * float) :=
  let '(key, rainfall) := element in
  r ← PyFloat.round rainfall 6;
  Ok (key, r).

(** [d[k]] *)
Definition getitem {V : Type} (d : gmap string V) (k : string) : result V :=
  match d !! k with
  | Some v => Ok v
  | None => Raise (KeyError k)
  end.

(** [l[0]] *)
Definition first {V : Type} (l : list V) : result V :=
  match l with
  | v :: _ => Ok v
  | [] => Raise IndexError
  end.

(** The truth value of a list: it is not empty. *)
Definition truthy {V : Type} (l : list V) : bool :=
  match l with
  | [] => false
  | _ :: _ => true
  end.

(** [all(l)] *)
Definition all (l : list bool) : bool := forallb id l.

(** [filter_missing_values] (lines 102-115): [all([data['rain'], data['dengue']])]. *)
Definition filter_missing_values (element : string * gmap string (list float))
  : result bool :=
  let '(key, data) := element in
  r ← getitem data "rain";
  d ← getitem data "dengue";
  if all [truthy r; truthy d] then Ok true else Ok false.

(** [unpack_elements] (lines 117-126): [uf, year, month = key.split('-')]
    raises [ValueError] unless the key has exactly three tokens. *)
Definition unpack_elements (element : string * gmap string (list float))
  : result (string * string * string * string * string) :=
  let '(key, data) := element in
  match Str.split_chr "-" key with
  | [uf; year; month] =>
      r ← getitem data "rain";
      r0 ← first r;
      d ← getitem data "dengue";
      d0 ← first d;
      Ok (uf, year, month, PyFloat.repr r0, PyFloat.repr d0)
  | _ => Raise ValueError
  end.

(** [prepare_csv] (lines 128-136): [delimiter.join(element)]. *)
Definition prepare_csv (element : string * string * string * string * string)
  (delimiter : string) : string :=
  let '(uf, year, month, rainfall, cases) := element in
  Str.join delimiter [uf; year; month; rainfall; cases].

(** ** The three branches of the pipeline, from the lines read (the header
    line is skipped by the reader) *)

(** [dengue] (lines 138-150) *)
Definition dengue (lines : list string) : result (list (string * float)) :=
  fields ← Beam.Map (fun e => text_to_list e "|") lines;
  dicts ← Beam.Map (fun e => Ok (list_to_dictionary e dengue_columns)) fields;
  dated ← Beam.Map transform_dates dicts;
  keyed ← Beam.Map uf_key dated;
  cases ← Beam.FlatMap dengue_cases (Beam.GroupByKey keyed);
  Ok (Beam.CombinePerKey py_sum cases).

(** [rain] (lines 152-161) *)
Definition rain (lines : list string) : result (list (string * float)) :=
  fields ← Beam.Map (fun e => text_to_list e ",") lines;
  keyed ← Beam.Map rain_key_uf_year_month fields;
  Beam.Map round_rainfall (Beam.CombinePerKey py_sum keyed).

(** The part of [rain_dengue] after the two branches: the join and the
    completeness filter, then the formatting of the rows. *)
Definition merge_and_filter (rain_pc dengue_pc : list (string * float))
  : result (list (string * gmap string (list float))) :=
  Beam.Filter filter_missing_values
    (Beam.CoGroupByKey [("rain"%string, rain_pc); ("dengue"%string, dengue_pc)]).

Definition format_rows (buckets : list (string * gmap string (list float)))
  : result (list string) :=
  rows ← Beam.Map unpack_elements buckets;
  Beam.Map (fun e => Ok (prepare_csv e ";")) rows.

(** [rain_dengue] (lines 163-173) on the outputs of the two branches. *)
Definition rain_dengue (rain_lines dengue_lines : list string)
  : result (list string) :=
  rain_pc ← rain rain_lines;
  dengue_pc ← dengue dengue_lines;
  buckets ← merge_and_filter rain_pc dengue_pc;
  format_rows buckets.


(** ** Sample records *)

(** The record that reaches [dengue_cases] for the line
    [1|2015-03-10|<casos>|3550308|Sao Paulo|SP|01000|0|0]. *)
Definition sample_record (casos : string) : gmap string string :=
  <["ano_mes"%string := "2015-03"%string]>
    (list_to_dictionary
       ["1"; "2015-03-10"; casos; "3550308"; "Sao Paulo"; "SP"; "01000"; "0"; "0"]%string
       dengue_columns).

(** [10.0], [5.5] and [-3.0] *)
Definition float_10 : float := S754_finite false 5629499534213120 (-49).
Definition float_5_5 : float := S754_finite false 6192449487634432 (-50).
Definition float_minus_3 : float := S754_finite true 6755399441055744 (-51).

(** ** Auxiliary notions of the statements *)

(** The number of occurrences of [c] in [s]. *)
Fixpoint count_chr (c : ascii) (s : string) : nat :=
  match s with
  | EmptyString => 0
  | String a s' => (if Ascii.eqb a c then 1 else 0) + count_chr c s'
  end.

(** [s[n:]] *)
Fixpoint drop_chars (n : nat) (s : string) : string :=
  match n, s with
  | S k, String _ s' => drop_chars k s'
  | _, _ => s
  end.

(** The mapping of a dengue line before the dating. *)
Definition dengue_dict (line : string) : gmap string string :=
  list_to_dictionary (Str.split_from "|" 0 EmptyString line) dengue_columns.

(** A record is processed when its ['casos'] is set and holds no digit or
    parses. *)
Definition casos_ok (d : gmap string string) : Prop :=
  ∃ casos, d !! "casos"%string = Some casos
    ∧ (PyFloat.has_digit casos = true →
       is_raise (PyFloat.of_string casos) = false).

(** The row of a bucket of the join of [rain_pc] and [dengue_pc]: the three
    tokens of the bucket's key, then the printed value that each of the two
    collections holds for that key. *)
Definition row_of (rain_pc dengue_pc : list (string * float))
    (b : string * gmap string (list float)) (row : string) : Prop :=
  ∃ uf year month r d,
    Str.split_chr "-" b.1 = [uf; year; month]
    ∧ (b.1, r) ∈ rain_pc
    ∧ (b.1, d) ∈ dengue_pc
    ∧ row = prepare_csv (uf, year, month, PyFloat.repr r, PyFloat.repr d) ";".

(** * Properties *)

(** ** Strings: [split] and [join] *)

Module StrFacts.
Import Str.

Lemma append_cons a s t : String a s +:+ t = String a (s +:+ t).
Proof. reflexivity. Qed.

Lemma append_empty_r s : s +:+ EmptyString = s.
Proof. induction s as [|a s IH]; [done|]. by rewrite append_cons, IH. Qed.

Lemma append_snoc s a t : (s +:+ String a EmptyString) +:+ t = s +:+ String a t.
Proof. induction s as [|b s IH]; [done|]. by rewrite !append_cons, IH. Qed.

(** A split always has a first field. *)
Lemma split_chr_cons c s : ∃ h t, split_chr c s = h :: t.
Proof.
  destruct s as [|a s]; simpl; [by eauto|].
  destruct (Ascii.eqb a c); [by eauto|].
  destruct (split_chr c s); eauto.
Qed.

(** No field of a split holds the separator. *)
Lemma split_chr_free c s :
  Forall (fun t => contains_chr c t = false) (split_chr c s).
Proof.
  induction s as [|a s IH]; simpl.
  - by repeat constructor.
  - destruct (Ascii.eqb a c) eqn:E.
    + by constructor.
    + destruct (split_chr_cons c s) as (h & t & Hs). rewrite Hs in IH |- *.
      inversion IH; subst. constructor; [|done].
      simpl. by rewrite E.
Qed.

Lemma split_chr_app c a b :
  contains_chr c a = false →
  split_chr c (a +:+ String c b) = a :: split_chr c b.
Proof.
  induction a as [|x a IH]; intros H.
  - simpl. by rewrite Ascii.eqb_refl.
  - simpl in H. apply orb_false_iff in H as [Hx H].
    rewrite append_cons. cbn [split_chr]. by rewrite Hx, IH.
Qed.

Lemma split_chr_id c a : contains_chr c a = false → split_chr c a = [a].
Proof.
  induction a as [|x a IH]; simpl; intros H; [done|].
  apply orb_false_iff in H as [-> H]. by rewrite IH.
Qed.

(** Splitting the join of three separator-free fields gives them back. *)
Lemma split_chr_join3 c a b d :
  contains_chr c a = false → contains_chr c b = false →
  contains_chr c d = false →
  split_chr c (a +:+ String c EmptyString +:+ join (String c EmptyString) [b; d])
  = [a; b; d].
Proof.
  intros Ha Hb Hd. unfold join. cbn [String.concat].
  rewrite !append_cons. change (EmptyString +:+ ?x) with x.
  rewrite split_chr_app by done.
  change (EmptyString +:+ d) with d.
  rewrite split_chr_app by done.
  by rewrite split_chr_id.
Qed.

(** The general scan agrees with [split_chr] on one-character separators. *)
Lemma split_from_chr c cur s :
  split_from (String c EmptyString) 0 cur s
  = match split_chr c s with
    | h :: t => (cur +:+ h) :: t
    | [] => [cur]
    end.
Proof.
  revert cur. induction s as [|a s IH]; intros cur.
  - simpl. by rewrite append_empty_r.
  - cbn [split_from split_chr String.prefix String.length Nat.pred].
    destruct (ascii_dec c a) as [->|Hne].
    + rewrite Ascii.eqb_refl.
      assert (String.prefix EmptyString s = true) as -> by by destruct s.
      rewrite IH, append_empty_r.
      by destruct (split_chr_cons a s) as (h & t & ->).
    + assert (Ascii.eqb a c = false) as ->
        by (apply Ascii.eqb_neq; congruence).
      rewrite IH.
      destruct (split_chr_cons c s) as (h & t & ->).
      by rewrite append_snoc.
Qed.

Lemma split_single c s : split (String c EmptyString) s = Ok (split_chr c s).
Proof.
  unfold split. rewrite split_from_chr.
  by destruct (split_chr_cons c s) as (h & t & ->).
Qed.

Lemma split_from_cons sep k cur s : ∃ h t, split_from sep k cur s = h :: t.
Proof.
  revert k cur. induction s as [|a s IH]; intros k cur;
    cbn [split_from]; [by eauto|].
  destruct k; [|by apply IH].
  case (String.prefix sep (String a s)); [by eauto|by apply IH].
Qed.

End StrFacts.

(** ** Dictionaries built from pairs *)

Section Dict.
Implicit Types (pairs : list (string * string)) (m : gmap string string).

Lemma py_dict_fold_None pairs m k :
  (fold_left (fun m kv => <[kv.1 := kv.2]> m) pairs m !! k = None)
  ↔ (k ∉ pairs.*1) ∧ (m !! k = None).
Proof.
  revert m. induction pairs as [|[k' v] pairs IH]; intros m; simpl.
  - rewrite elem_of_nil. tauto.
  - rewrite IH, not_elem_of_cons, lookup_insert_None. split.
    + intros (Hnot & Hm & Hne). by repeat split.
    + intros ((Hne & Hnot) & Hm). by repeat split.
Qed.

Lemma py_dict_fold_Some pairs m k v :
  fold_left (fun m kv => <[kv.1 := kv.2]> m) pairs m !! k = Some v →
  (k, v) ∈ pairs ∨ m !! k = Some v.
Proof.
  revert m. induction pairs as [|[k' v'] pairs IH]; intros m; simpl.
  - by right.
  - intros [H|H]%IH; [left; by right|].
    apply lookup_insert_Some in H as [[<- <-]|[_ H]]; [left; by left|by right].
Qed.

Lemma py_dict_None pairs k : py_dict pairs !! k = None ↔ k ∉ pairs.*1.
Proof.
  unfold py_dict. rewrite py_dict_fold_None, lookup_empty. tauto.
Qed.

Lemma py_dict_Some pairs k v : py_dict pairs !! k = Some v → (k, v) ∈ pairs.
Proof.
  unfold py_dict. intros [H|H]%py_dict_fold_Some; [done|].
  by rewrite lookup_empty in H.
Qed.

End Dict.

Lemma zip_fst_take {A B} (l : list A) (k : list B) :
  (zip l k).*1 = take (length k) l.
Proof.
  revert k. induction l as [|a l IH]; intros [|b k]; simpl; try done.
  by rewrite IH.
Qed.

Lemma zip_take_l {A B} (l : list A) (k : list B) :
  zip (take (length k) l) k = zip l k.
Proof.
  revert k. induction l as [|a l IH]; intros [|b k]; simpl; try done.
  by rewrite IH.
Qed.

Lemma zip_take_r {A B} (l : list A) (k : list B) :
  zip l (take (length l) k) = zip l k.
Proof.
  revert k. induction l as [|a l IH]; intros [|b k]; simpl; try done.
  by rewrite IH.
Qed.

Lemma zip_lookup_Some {A B} (l : list A) (k : list B) i a b :
  zip l k !! i = Some (a, b) → l !! i = Some a ∧ k !! i = Some b.
Proof.
  revert k i. induction l as [|x l IH]; intros [|y k] [|i]; simpl; try done.
  - by intros [= -> ->].
  - apply IH.
Qed.

(** ** The result monad and [Map] *)

Lemma ret_bind {A B} (a : A) (k : A → result B) : (Ok a ≫= k) = k a.
Proof. reflexivity. Qed.

Lemma bind_Raise {A B} (r : result A) (k : A → result B) e :
  r = Raise e → (r ≫= k) = Raise e.
Proof. by intros ->. Qed.

Section MapFacts.
Context {A B : Type} (f : A → result B).

Lemma Map_nil : Beam.Map f [] = Ok [].
Proof. reflexivity. Qed.

Lemma Map_cons a l :
  Beam.Map f (a :: l)
  = match f a with
    | Ok b => match Beam.Map f l with
              | Ok bs => Ok (b :: bs)
              | Raise e => Raise e
              end
    | Raise e => Raise e
    end.
Proof. unfold Beam.Map. simpl. by destruct (f a). Qed.

(** [Map f] returns exactly when [f] returns on every element, and then
    gives the results in order. *)
Lemma Map_Ok l l' :
  Beam.Map f l = Ok l' ↔ Forall2 (fun a b => f a = Ok b) l l'.
Proof.
  revert l'. induction l as [|a l IH]; intros l'.
  - rewrite Map_nil. split; [intros [= <-]; constructor|by inversion 1].
  - rewrite Map_cons. split.
    + destruct (f a) as [b|] eqn:Ha; [|done].
      destruct (Beam.Map f l) as [bs|] eqn:Hl; [|done].
      intros [= <-]. constructor; [done|]. by apply IH.
    + inversion 1 as [|? b ? bs Ha Hl]; subst. rewrite Ha.
      apply IH in Hl. by rewrite Hl.
Qed.

Lemma Map_Ok_elem l l' a :
  Beam.Map f l = Ok l' → a ∈ l → ∃ b, b ∈ l' ∧ f a = Ok b.
Proof.
  intros H%Map_Ok Ha. apply list_elem_of_lookup in Ha as [i Hi].
  destruct (Forall2_lookup_l _ _ _ _ _ H Hi) as (b & Hb & Hab).
  exists b. split; [|done]. by eapply list_elem_of_lookup_2.
Qed.

(** One element on which [f] raises fails the whole [Map]. *)
Lemma Map_raise l a :
  a ∈ l → is_raise (f a) = true → is_raise (Beam.Map f l) = true.
Proof.
  induction 1 as [a l|a a' l Hin IH]; intros Ha; rewrite Map_cons.
  - by destruct (f a).
  - destruct (f a'); [|done]. specialize (IH Ha).
    by destruct (Beam.Map f l).
Qed.

(** When [f] raises nothing but [e], neither does [Map f]. *)
Lemma Map_raise_only e l :
  (∀ a e', f a = Raise e' → e' = e) →
  is_raise (Beam.Map f l) = true → Beam.Map f l = Raise e.
Proof.
  intros Hf. induction l as [|a l IH]; [done|]. rewrite Map_cons.
  destruct (f a) as [b|e'] eqn:Ha.
  - destruct (Beam.Map f l); [done|]. intros _.
    by specialize (IH eq_refl) as [= ->].
  - intros _. by rewrite (Hf _ _ Ha).
Qed.

End MapFacts.

Lemma Map_pure {A B : Type} (g : A → B) (l : list A) :
  Beam.Map (fun a => Ok (g a)) l = Ok (g <$> l).
Proof. apply Map_Ok. induction l; constructor; auto. Qed.

(** [Filter] with a predicate that never raises is a plain filter. *)
Lemma Filter_decide {A} (p : A → result bool) (P : A → Prop)
    `{∀ a, Decision (P a)} (l : list A) :
  (∀ a, a ∈ l → p a = Ok (bool_decide (P a))) →
  Beam.Filter p l = Ok (filter P l).
Proof.
  induction l as [|a l IH]; intros Hp; [done|]. simpl.
  rewrite (Hp a); [|by left]. rewrite ret_bind.
  rewrite IH; [|intros a' Ha'; apply Hp; by right]. rewrite ret_bind.
  rewrite filter_cons.
  destruct (decide (P a));
    [by rewrite bool_decide_eq_true_2|by rewrite bool_decide_eq_false_2].
Qed.

(** ** Floats *)

(** [float(s)] raises nothing but [ValueError]. *)
Lemma of_string_raise s e : PyFloat.of_string s = Raise e → e = ValueError.
Proof.
  unfold PyFloat.of_string.
  repeat (case_match; try congruence).
Qed.

(** [x < 0.0] excludes [x >= 0.0]. *)
Lemma negative_not_geb x :
  PyFloat.ltb x PyFloat.zero = true → PyFloat.geb x PyFloat.zero = false.
Proof. by destruct x as [[]|[]| |[] m e]. Qed.

(** Adding [0.0] changes nothing, except that [-0.0 + 0.0] is [0.0]. *)
Lemma add_zero_r x : x ≠ S754_zero true → PyFloat.add x PyFloat.zero = x.
Proof. by destruct x as [[]|[]| |[] m e]. Qed.

Lemma py_sum_zero_first values : py_sum (PyFloat.zero :: values) = py_sum values.
Proof. reflexivity. Qed.

Lemma py_sum_snoc values x :
  py_sum (values ++ [x]) = PyFloat.add (py_sum values) x.
Proof. unfold py_sum. by rewrite fold_left_app. Qed.

(** The result of [round(x, 6)] on a finite [x] is the binary64 nearest to
    a decimal with six fractional digits. *)
Lemma round_six_decimal s m e r :
  PyFloat.round (S754_finite s m e) 6 = Ok r →
  ∃ n : Z, r = PyFloat.decimal_to_float s n (-6).
Proof.
  unfold PyFloat.round.
  change (PyFloat.NDIGITS_MAX <? 6) with false.
  change (6 <? PyFloat.NDIGITS_MIN) with false. cbv iota.
  change (- (6)) with (-6).
  set (n := PyFloat.div_half_even _ _).
  destruct (PyFloat.decimal_to_float s n (-6)) eqn:Hr; intros [= <-]; by exists n.
Qed.

(** ** Record level facts *)

Lemma rain_key_raise element e :
  rain_key_uf_year_month element = Raise e → e = ValueError.
Proof.
  unfold rain_key_uf_year_month.
  destruct element as [|date [|rainfall [|uf [|]]]]; try congruence.
  destruct (PyFloat.of_string rainfall) as [x|e'] eqn:Hx; simpl.
  - destruct (PyFloat.geb x PyFloat.zero); simpl; congruence.
  - intros [= <-]. by eapply of_string_raise.
Qed.

Lemma rain_key_length element :
  length element ≠ 3%nat → rain_key_uf_year_month element = Raise ValueError.
Proof. by destruct element as [|date [|rainfall [|uf [|]]]]. Qed.

Lemma rain_key_negative date rainfall uf x :
  PyFloat.of_string rainfall = Ok x →
  PyFloat.ltb x PyFloat.zero = true →
  rain_key_uf_year_month [date; rainfall; uf]
  = Ok (uf +:+ "-" +:+ Str.join "-" (take 2 (Str.split_chr "-" date)),
        PyFloat.zero).
Proof.
  intros Hx Hneg. unfold rain_key_uf_year_month.
  rewrite Hx, ret_bind. by rewrite (negative_not_geb _ Hneg).
Qed.

Lemma rain_key_unparsable date rainfall uf :
  is_raise (PyFloat.of_string rainfall) = true →
  rain_key_uf_year_month [date; rainfall; uf] = Raise ValueError.
Proof.
  intros Hraise. unfold rain_key_uf_year_month.
  destruct (PyFloat.of_string rainfall) as [x|e] eqn:Hx; [done|].
  by rewrite (of_string_raise _ _ Hx).
Qed.

Lemma round_rainfall_Ok key x key' r :
  round_rainfall (key, x) = Ok (key', r) →
  key' = key ∧ PyFloat.round x 6 = Ok r.
Proof.
  unfold round_rainfall. destruct (PyFloat.round x 6); [|done].
  rewrite ret_bind. by intros [= <- <-].
Qed.

Lemma dengue_cases_no_digit uf casos (d : gmap string string) rest :
  d !! "casos"%string = Some casos →
  PyFloat.has_digit casos = false →
  dengue_cases (uf, d :: rest)
  = Yield (uf +:+ "-" +:+ format_get (d !! "ano_mes"%string), PyFloat.zero)
          (dengue_cases (uf, rest)).
Proof. intros Hc Hd. simpl. by rewrite Hc, Hd. Qed.

(** A group whose first records are all processed goes on with the rest. *)
Lemma dengue_cases_app uf (before rest : list (gmap string string)) ys :
  exhaust (dengue_cases (uf, before)) = Ok ys →
  dengue_cases (uf, before ++ rest) = yield_all ys (dengue_cases (uf, rest)).
Proof.
  revert ys. induction before as [|d before IH]; intros ys.
  - by intros [= <-].
  - cbn [dengue_cases dengue_cases_loop app] in *.
    destruct (d !! "casos"%string) as [casos|]; [|done].
    assert (∀ p, exhaust (Yield p (dengue_cases_loop uf before)) = Ok ys →
                 Yield p (dengue_cases_loop uf (before ++ rest))
                 = yield_all ys (dengue_cases_loop uf rest)) as Hstep.
    { intros p. cbn [exhaust].
      destruct (exhaust (dengue_cases_loop uf before)) as [ys'|]; [|done].
      intros [= <-]. cbn [yield_all]. f_equal. by apply IH. }
    destruct (PyFloat.has_digit casos); [|by apply Hstep].
    destruct (PyFloat.of_string casos); [by apply Hstep|done].
Qed.

Lemma dengue_cases_unset uf (d : gmap string string) rest :
  d !! "casos"%string = None → dengue_cases (uf, d :: rest) = Throw TypeError.
Proof. simpl. by intros ->. Qed.

Lemma transform_dates_unset element :
  element !! "data_iniSE"%string = None →
  transform_dates element = Raise (KeyError "data_iniSE").
Proof. unfold transform_dates. by intros ->. Qed.

Lemma transform_dates_keeps_uf element element' :
  transform_dates element = Ok element' →
  element' !! "uf"%string = element !! "uf"%string.
Proof.
  unfold transform_dates. destruct (element !! "data_iniSE"%string); [|done].
  intros [= <-]. by rewrite lookup_insert_ne.
Qed.

Lemma uf_key_unset element :
  element !! "uf"%string = None → uf_key element = Raise (KeyError "uf").
Proof. unfold uf_key. by intros ->. Qed.

Lemma text_to_list_length line c fields :
  text_to_list line (String c EmptyString) = Ok fields →
  (1 <= length fields)%nat.
Proof.
  intros [= <-].
  destruct (StrFacts.split_from_cons (String c EmptyString) 0 EmptyString line)
    as (h & t & ->).
  simpl. lia.
Qed.

(** ** Record parser: zipping fields with a schema *)

(** C8.  For every field sequence and every schema, of any lengths,
    [list_to_dictionary] returns a mapping (it has no failing case) in which
    a name is unset exactly when it does not occur among the first
    [len(element)] schema names, so that names beyond the field count are
    left unset; every stored value is the field at the position of its name
    within the schema, and the mapping is the same with the schema cut to
    the field count or with the fields cut to the schema length, so that
    fields beyond the schema are dropped. *)
Theorem list_to_dictionary_zip (element columns : list string) (name : string) :
  (list_to_dictionary element columns !! name = None
     ↔ name ∉ take (length element) columns)
  ∧ (∀ value, list_to_dictionary element columns !! name = Some value →
       ∃ i, (i < length columns)%nat ∧ columns !! i = Some name
            ∧ element !! i = Some value)
  ∧ list_to_dictionary element columns
      = list_to_dictionary element (take (length element) columns)
  ∧ list_to_dictionary element columns
      = list_to_dictionary (take (length columns) element) columns.
Proof.
  unfold list_to_dictionary. split_and!.
  - by rewrite py_dict_None, zip_fst_take.
  - intros value [i Hi]%py_dict_Some%list_elem_of_lookup_1.
    apply zip_lookup_Some in Hi as [Hc He].
    exists i. split_and!; [|done..]. by eapply lookup_lt_Some.
  - by rewrite zip_take_l.
  - by rewrite zip_take_r.
Qed.

Lemma list_to_dictionary_zip_witness :
  list_to_dictionary ["1"; "2015-03-10"]%string dengue_columns !! "casos"%string
  = None.
Proof.
  apply (proj1 (list_to_dictionary_zip ["1"; "2015-03-10"]%string
                  dengue_columns "casos"%string)).
  apply not_elem_of_cons. split; [discriminate|].
  apply not_elem_of_cons. split; [discriminate|].
  apply not_elem_of_nil.
Defined.

(** A schema name is unset exactly when the record is too short to reach
    its position. *)
Lemma column_unset_None (fields : list string) (name : string) :
  (list_to_dictionary fields dengue_columns !! name = None)
  ↔ (name ∉ take (length fields) dengue_columns).
Proof.
  unfold list_to_dictionary. by rewrite py_dict_None, zip_fst_take.
Qed.

Lemma dengue_columns_NoDup : NoDup dengue_columns.
Proof. apply (bool_decide_unpack _). by vm_compute. Qed.

Lemma column_unset (fields : list string) (name : string) (i : nat) :
  dengue_columns !! i = Some name →
  (list_to_dictionary fields dengue_columns !! name = None)
  ↔ (length fields <= i)%nat.
Proof.
  intros Hi. rewrite column_unset_None, list_elem_of_lookup. split.
  - intros Hnot. destruct (decide (length fields <= i)%nat); [done|].
    exfalso. apply Hnot. exists i. rewrite lookup_take_lt by lia. done.
  - intros Hle [j Hj]. apply lookup_take_Some in Hj as [Hj Hlt].
    pose proof (NoDup_lookup _ _ _ _ dengue_columns_NoDup Hi Hj). lia.
Qed.

Lemma casos_unset fields :
  (list_to_dictionary fields dengue_columns !! "casos"%string = None)
  ↔ (length fields <= 2)%nat.
Proof. by apply column_unset. Qed.

Lemma data_iniSE_unset fields :
  (list_to_dictionary fields dengue_columns !! "data_iniSE"%string = None)
  ↔ (length fields <= 1)%nat.
Proof. by apply column_unset. Qed.

Lemma uf_unset fields :
  (list_to_dictionary fields dengue_columns !! "uf"%string = None)
  ↔ (length fields <= 5)%nat.
Proof. by apply column_unset. Qed.

(** ** Rain side *)

(** C9.  For every rain line whose split on [','] does not give exactly three
    fields, [rain_key_uf_year_month] raises [ValueError] on the fields, and
    any run of the rain branch over lines that include this one raises
    [ValueError]: the record is neither skipped nor zero-filled. *)
Theorem rain_field_count_aborts (line : string) (fields : list string) :
  text_to_list line "," = Ok fields →
  length fields ≠ 3%nat →
  rain_key_uf_year_month fields = Raise ValueError
  ∧ ∀ before after : list string,
      rain (before ++ line :: after) = Raise ValueError.
Proof.
  intros Hsplit Hlen. split; [by apply rain_key_length|].
  intros before after. unfold rain.
  rewrite (Map_pure (fun e => Str.split_from "," 0 EmptyString e)), ret_bind.
  apply bind_Raise.
  apply Map_raise_only; [apply rain_key_raise|].
  apply Map_raise with (a := fields).
  - injection Hsplit as <-. apply list_elem_of_fmap. exists line.
    split; [done|]. apply elem_of_app. right. by left.
  - by rewrite rain_key_length.
Qed.

Lemma rain_field_count_aborts_witness :
  rain ["2015-03-05,5.5,SP"; "2015-03-05,5.5"; "2015-03-25,4.5,SP"]%string
  = Raise ValueError.
Proof.
  exact (proj2 (rain_field_count_aborts "2015-03-05,5.5" ["2015-03-05"; "5.5"]%string
                  eq_refl ltac:(simpl; lia))
           ["2015-03-05,5.5,SP"%string] ["2015-03-25,4.5,SP"%string]).
Defined.

(** C6.  For every rain record whose rainfall parses as a float below
    [0.0], [rain_key_uf_year_month] returns the record's key paired with
    [0.0]; in the keyed collection that is summed per key the record
    stands as that pair, not as its negative value. *)
Theorem rain_negative_clamped (date rainfall uf : string) (x : float) :
  PyFloat.of_string rainfall = Ok x →
  PyFloat.ltb x PyFloat.zero = true →
  rain_key_uf_year_month [date; rainfall; uf]
  = Ok (uf +:+ "-" +:+ Str.join "-" (take 2 (Str.split_chr "-" date)),
        PyFloat.zero)
  ∧ ∀ before after keyed,
      Beam.Map rain_key_uf_year_month (before ++ [date; rainfall; uf] :: after)
      = Ok keyed →
      keyed !! length before
      = Some (uf +:+ "-" +:+ Str.join "-" (take 2 (Str.split_chr "-" date)),
              PyFloat.zero).
Proof.
  intros Hx Hneg.
  pose proof (rain_key_negative date rainfall uf x Hx Hneg) as Hkey.
  split; [done|]. intros before after keyed Hmap%Map_Ok.
  assert ((before ++ [date; rainfall; uf] :: after) !! length before
          = Some [date; rainfall; uf]) as Hi.
  { by rewrite lookup_app_r, Nat.sub_diag by lia. }
  destruct (Forall2_lookup_l _ _ _ _ _ Hmap Hi) as (b & -> & Hb).
  congruence.
Qed.

Lemma rain_negative_clamped_witness :
  rain_key_uf_year_month ["2015-04-01"; "-3.0"; "SP"]%string
  = Ok ("SP-2015-04"%string, PyFloat.zero).
Proof.
  exact (proj1 (rain_negative_clamped "2015-04-01" "-3.0" "SP" float_minus_3
                  eq_refl eq_refl)).
Defined.

(** ** Dengue side *)

(** C7.  For every dengue record whose ['casos'] string holds no digit,
    [dengue_cases] yields the pair of the record's composite key and [0.0]
    and goes on with the rest of the group: the record is not dropped.  So
    it is wherever the record stands in its group, once the records before
    it have been processed. *)
Theorem dengue_no_digit_zero (uf casos : string) (d : gmap string string)
    (rest : list (gmap string string)) :
  d !! "casos"%string = Some casos →
  PyFloat.has_digit casos = false →
  dengue_cases (uf, d :: rest)
  = Yield (uf +:+ "-" +:+ format_get (d !! "ano_mes"%string), PyFloat.zero)
          (dengue_cases (uf, rest))
  ∧ ∀ before ys,
      exhaust (dengue_cases (uf, before)) = Ok ys →
      dengue_cases (uf, before ++ d :: rest)
      = yield_all ys
          (Yield (uf +:+ "-" +:+ format_get (d !! "ano_mes"%string), PyFloat.zero)
                 (dengue_cases (uf, rest))).
Proof.
  intros Hc Hd.
  pose proof (dengue_cases_no_digit uf casos d rest Hc Hd) as Hyield.
  split; [done|]. intros before ys Hys.
  by rewrite (dengue_cases_app _ _ _ _ Hys), Hyield.
Qed.

Lemma dengue_no_digit_zero_witness :
  dengue_cases ("SP"%string, [sample_record "abc"])
  = Yield ("SP-2015-03"%string, PyFloat.zero) Return
  ∧ dengue_cases ("SP"%string, [sample_record "10"; sample_record "abc"])
    = Yield ("SP-2015-03"%string, float_10)
        (Yield ("SP-2015-03"%string, PyFloat.zero) Return).
Proof.
  assert (sample_record "abc" !! "casos"%string = Some "abc"%string) as Habc
    by reflexivity.
  pose proof (dengue_no_digit_zero "SP" "abc" _ [] Habc eq_refl)
    as [Hfirst Hlater].
  split; [exact Hfirst|].
  exact (Hlater [sample_record "10"] [("SP-2015-03"%string, float_10)] eq_refl).
Defined.

(** C1, as stated, fails: the ['casos'] string ["12a"] holds a digit and is
    rejected by [float], and [dengue_cases] raises [ValueError] on its
    record instead of yielding the key with [0.0]; so does the dengue
    branch on the line of that record. *)
Lemma dengue_digit_not_numeric_counterexample :
  PyFloat.has_digit "12a" = true
  ∧ PyFloat.of_string "12a" = Raise ValueError
  ∧ dengue_cases ("SP"%string, [sample_record "12a"]) = Throw ValueError
  ∧ dengue_cases ("SP"%string, [sample_record "12a"])
    ≠ Yield ("SP-2015-03"%string, PyFloat.zero) Return
  ∧ dengue ["1|2015-03-10|12a|3550308|Sao Paulo|SP|01000|0|0"%string]
    = Raise ValueError.
Proof. split_and!; by vm_compute. Qed.

(** C1, amended.  For every dengue record whose ['casos'] string holds a
    digit: when [float] accepts the string, [dengue_cases] yields the
    record's key with the parsed value; when [float] rejects it,
    [dengue_cases] raises [ValueError] at this record and yields nothing
    for it. *)
Theorem dengue_digit_parsed_or_raises (uf casos : string)
    (d : gmap string string) (rest : list (gmap string string)) :
  d !! "casos"%string = Some casos →
  PyFloat.has_digit casos = true →
  (∀ x, PyFloat.of_string casos = Ok x →
        dengue_cases (uf, d :: rest)
        = Yield (uf +:+ "-" +:+ format_get (d !! "ano_mes"%string), x)
                (dengue_cases (uf, rest)))
  ∧ (is_raise (PyFloat.of_string casos) = true →
     dengue_cases (uf, d :: rest) = Throw ValueError).
Proof.
  intros Hc Hd. simpl. rewrite Hc, Hd. split.
  - by intros x ->.
  - destruct (PyFloat.of_string casos) as [x|e] eqn:Hx; [done|].
    intros _. by rewrite (of_string_raise _ _ Hx).
Qed.

Lemma dengue_digit_parsed_or_raises_witness :
  dengue_cases ("SP"%string, [sample_record "10"; sample_record "12a"])
  = Yield ("SP-2015-03"%string, float_10) (Throw ValueError).
Proof.
  assert (sample_record "10" !! "casos"%string = Some "10"%string) as H10
    by reflexivity.
  assert (sample_record "12a" !! "casos"%string = Some "12a"%string) as H12
    by reflexivity.
  rewrite (proj1 (dengue_digit_parsed_or_raises "SP" "10" _
                    [sample_record "12a"] H10 eq_refl)
             float_10 eq_refl).
  rewrite (proj2 (dengue_digit_parsed_or_raises "SP" "12a" _ [] H12 eq_refl)
             eq_refl).
  reflexivity.
Defined.

(** ** Zero fallback *)

(** C2, as stated, fails: the rainfall ["abc"] fails numeric parsing, and
    [rain_key_uf_year_month] raises [ValueError] on its record instead of
    returning the key with [0.0]; the rain branch raises on its line.  And
    the dengue measure ["-5"] is negative, and [dengue_cases] yields it as
    [-5.0], not as [0.0]. *)
Lemma rain_unparsable_counterexample :
  PyFloat.of_string "abc" = Raise ValueError
  ∧ rain_key_uf_year_month ["2015-03-05"; "abc"; "SP"]%string = Raise ValueError
  ∧ rain_key_uf_year_month ["2015-03-05"; "abc"; "SP"]%string
    ≠ Ok ("SP-2015-03"%string, PyFloat.zero)
  ∧ rain ["2015-03-05,abc,SP"%string] = Raise ValueError
  ∧ dengue_cases ("SP"%string, [sample_record "-5"])
    = Yield ("SP-2015-03"%string, S754_finite true 5629499534213120 (-50))
            Return
  ∧ PyFloat.ltb (S754_finite true 5629499534213120 (-50)) PyFloat.zero = true.
Proof. split_and!; by vm_compute. Qed.

(** C2, amended.  On the rain side a measure that parses to a float below
    [0.0] is replaced by [0.0] and the record is kept with its key, while a
    measure that fails to parse raises [ValueError]; on the dengue side a
    measure without any digit is replaced by [0.0] and the record is kept
    with its key. *)
Theorem zero_fallback_by_source :
  (∀ date rainfall uf x,
     PyFloat.of_string rainfall = Ok x →
     PyFloat.ltb x PyFloat.zero = true →
     rain_key_uf_year_month [date; rainfall; uf]
     = Ok (uf +:+ "-" +:+ Str.join "-" (take 2 (Str.split_chr "-" date)),
           PyFloat.zero))
  ∧ (∀ date rainfall uf,
       is_raise (PyFloat.of_string rainfall) = true →
       rain_key_uf_year_month [date; rainfall; uf] = Raise ValueError)
  ∧ (∀ uf casos (d : gmap string string) rest,
       d !! "casos"%string = Some casos →
       PyFloat.has_digit casos = false →
       dengue_cases (uf, d :: rest)
       = Yield (uf +:+ "-" +:+ format_get (d !! "ano_mes"%string), PyFloat.zero)
               (dengue_cases (uf, rest))).
Proof.
  split_and!.
  - apply rain_key_negative.
  - apply rain_key_unparsable.
  - apply dengue_cases_no_digit.
Qed.

Lemma zero_fallback_by_source_witness :
  rain_key_uf_year_month ["2015-04-01"; "-3.0"; "SP"]%string
  = Ok ("SP-2015-04"%string, PyFloat.zero)
  ∧ rain_key_uf_year_month ["2015-04-01"; "3,0"; "SP"]%string = Raise ValueError
  ∧ dengue_cases ("SP"%string, [sample_record "abc"])
    = Yield ("SP-2015-03"%string, PyFloat.zero) Return.
Proof.
  assert (sample_record "abc" !! "casos"%string = Some "abc"%string) as Habc
    by reflexivity.
  destruct zero_fallback_by_source as (Hneg & Hbad & Hnone).
  split_and!.
  - exact (Hneg "2015-04-01" "-3.0" "SP" float_minus_3 eq_refl eq_refl)%string.
  - exact (Hbad "2015-04-01" "3,0" "SP" eq_refl)%string.
  - exact (Hnone "SP"%string "abc"%string _ [] Habc eq_refl).
Defined.

(** ** Short dengue lines *)

(** The stages of [dengue] up to the dating of the records. *)
Lemma dengue_stages lines :
  dengue lines
  = (dated ← Beam.Map transform_dates
               ((fun line => list_to_dictionary
                               (Str.split_from "|" 0 EmptyString line)
                               dengue_columns) <$> lines);
     keyed ← Beam.Map uf_key dated;
     cases ← Beam.FlatMap dengue_cases (Beam.GroupByKey keyed);
     Ok (Beam.CombinePerKey py_sum cases)).
Proof.
  unfold dengue.
  rewrite (Map_pure (fun e => Str.split_from "|" 0 EmptyString e)), ret_bind.
  rewrite Map_pure, ret_bind. by rewrite <-list_fmap_compose.
Qed.

(** C10, as stated, fails: the line ["1|2015-03-10"] has two fields, its
    ['casos'] is unset, and the dengue branch raises [KeyError] for ['uf'] in
    [uf_key], before [dengue_cases] is reached; it does not raise the
    [TypeError] of a digit search in a missing value. *)
Lemma short_dengue_line_counterexample :
  text_to_list "1|2015-03-10" "|" = Ok ["1"; "2015-03-10"]%string
  ∧ list_to_dictionary ["1"; "2015-03-10"]%string dengue_columns !! "casos"%string
    = None
  ∧ Beam.Map uf_key
      [<["ano_mes"%string := "2015-03"%string]>
         (list_to_dictionary ["1"; "2015-03-10"]%string dengue_columns)]
    = Raise (KeyError "uf")
  ∧ dengue ["1|2015-03-10"%string] = Raise (KeyError "uf")
  ∧ dengue ["1|2015-03-10"%string] ≠ Raise TypeError.
Proof. split_and!; by vm_compute. Qed.

(** C10, amended.  For every dengue line whose split on ['|'] leaves
    ['casos'] unset in the mapping (fewer than three fields), the dengue
    branch raises downstream of the parser, in the key derivation: with one
    field [KeyError] for ['data_iniSE'] in [transform_dates], with two
    fields [KeyError] for ['uf'] in [uf_key]; any run over lines that
    include this one raises.  [dengue_cases] itself, handed the mapping of
    such a line, raises [TypeError]. *)
Theorem dengue_short_line_raises (line : string) (fields : list string) :
  text_to_list line "|" = Ok fields →
  list_to_dictionary fields dengue_columns !! "casos"%string = None →
  (length fields = 1%nat ∧ dengue [line] = Raise (KeyError "data_iniSE")
   ∨ length fields = 2%nat ∧ dengue [line] = Raise (KeyError "uf"))
  ∧ (∀ before after, is_raise (dengue (before ++ line :: after)) = true)
  ∧ (∀ uf rest,
       dengue_cases (uf, list_to_dictionary fields dengue_columns :: rest)
       = Throw TypeError).
Proof.
  intros Hsplit Hcasos.
  pose proof (text_to_list_length _ _ _ Hsplit) as Hge.
  pose proof (proj1 (casos_unset fields) Hcasos) as Hle.
  assert (list_to_dictionary fields dengue_columns !! "uf"%string = None) as Huf
    by (apply uf_unset; lia).
  injection Hsplit as Hfields.
  split_and!.
  - rewrite dengue_stages, fmap_cons, fmap_nil, Hfields, Map_cons, Map_nil.
    destruct (decide (length fields = 1%nat)) as [H1|H1]; [left|right];
      (split; [lia|]).
    + rewrite transform_dates_unset; [done|]. apply data_iniSE_unset. lia.
    + destruct (transform_dates _) as [d'|e] eqn:Hd.
      * rewrite ret_bind, Map_cons, uf_key_unset; [done|].
        by rewrite (transform_dates_keeps_uf _ _ Hd).
      * exfalso. unfold transform_dates in Hd.
        destruct (_ !! "data_iniSE"%string) eqn:Hdate; [done|].
        apply data_iniSE_unset in Hdate. lia.
  - intros before after. rewrite dengue_stages.
    set (dict := fun line => list_to_dictionary _ dengue_columns).
    assert (dict line ∈ dict <$> before ++ line :: after) as Hin.
    { apply list_elem_of_fmap. exists line. split; [done|].
      apply elem_of_app. right. by left. }
    destruct (Beam.Map transform_dates _) as [dated|e] eqn:Hdated; [|done].
    destruct (Map_Ok_elem _ _ _ _ Hdated Hin) as (d' & Hd' & Hok).
    rewrite ret_bind.
    assert (is_raise (Beam.Map uf_key dated) = true) as Hraise.
    { apply Map_raise with (a := d'); [done|].
      rewrite uf_key_unset; [done|].
      rewrite (transform_dates_keeps_uf _ _ Hok). unfold dict.
      by rewrite Hfields. }
    by destruct (Beam.Map uf_key dated).
  - intros uf rest. by apply dengue_cases_unset.
Qed.

Lemma dengue_short_line_raises_witness :
  dengue ["1|2015-03-10"%string] = Raise (KeyError "uf")
  ∧ is_raise (dengue ["1|2015-03-10|10|3550308|Sao Paulo|SP|01000|0|0";
                      "1|2015-03-10"]%string) = true.
Proof.
  pose proof (dengue_short_line_raises "1|2015-03-10" ["1"; "2015-03-10"]%string
                eq_refl eq_refl) as (Hone & Hany & _).
  split.
  - destruct Hone as [[Hlen _]|[_ Hone]]; [discriminate Hlen|exact Hone].
  - exact (Hany ["1|2015-03-10|10|3550308|Sao Paulo|SP|01000|0|0"%string] []).
Defined.

(** ** Composite keys *)

(** C4.  For every record of either source whose region [uf] holds no ['-']
    and whose date has at least the two components [year] and [month] when
    split on ['-']: the rain record with a parsable rainfall gets the key
    [uf-year-month], the dengue record with a measure that either holds no
    digit or parses gets the same key in the pair that [dengue_cases]
    yields, the key splits on ['-'] into exactly [uf], [year], [month], and
    [unpack_elements] returns these three tokens. *)
Theorem composite_key_round_trip (uf date year month : string)
    (rest : list string) :
  Str.contains_chr "-" uf = false →
  Str.split_chr "-" date = year :: month :: rest →
  let key := uf +:+ "-" +:+ year +:+ "-" +:+ month in
  Str.split_chr "-" key = [uf; year; month]
  ∧ (∀ rainfall y,
       PyFloat.of_string rainfall = Ok y →
       ∃ x, rain_key_uf_year_month [date; rainfall; uf] = Ok (key, x))
  ∧ (∀ (d : gmap string string) casos,
       d !! "uf"%string = Some uf →
       d !! "data_iniSE"%string = Some date →
       d !! "casos"%string = Some casos →
       PyFloat.has_digit casos = false
       ∨ is_raise (PyFloat.of_string casos) = false →
       ∃ d' x, transform_dates d = Ok d' ∧ uf_key d' = Ok (uf, d')
               ∧ dengue_cases (uf, [d']) = Yield (key, x) Return)
  ∧ (∀ (data : gmap string (list float)) r rs c cs,
       data !! "rain"%string = Some (r :: rs) →
       data !! "dengue"%string = Some (c :: cs) →
       unpack_elements (key, data)
       = Ok (uf, year, month, PyFloat.repr r, PyFloat.repr c)).
Proof.
  intros Huf Hdate key.
  pose proof (StrFacts.split_chr_free "-" date) as Hfree.
  rewrite Hdate in Hfree.
  apply Forall_cons in Hfree as [Hyear Hfree].
  apply Forall_cons in Hfree as [Hmonth _].
  assert (Str.split_chr "-" key = [uf; year; month]) as Hkey
    by by apply StrFacts.split_chr_join3.
  split_and!; [done|..].
  - intros rainfall y Hy. unfold rain_key_uf_year_month.
    rewrite Hdate, Hy, ret_bind.
    destruct (PyFloat.geb y PyFloat.zero); by eexists.
  - intros d casos Hd_uf Hd_date Hd_casos Hvalid.
    exists (<["ano_mes"%string := Str.join "-" (take 2 (Str.split_chr "-" date))]> d).
    exists (if PyFloat.has_digit casos
            then match PyFloat.of_string casos with
                 | Ok x => x
                 | Raise _ => PyFloat.zero
                 end
            else PyFloat.zero).
    split_and!.
    + unfold transform_dates. by rewrite Hd_date.
    + unfold uf_key. by rewrite lookup_insert_ne, Hd_uf.
    + cbn [dengue_cases dengue_cases_loop].
      rewrite lookup_insert_eq, lookup_insert_ne, Hd_casos, Hdate by done.
      cbn [format_get take].
      destruct (PyFloat.has_digit casos); [|done].
      destruct Hvalid as [?|Hvalid]; [done|].
      by destruct (PyFloat.of_string casos).
  - intros data r rs c cs Hr Hc. unfold unpack_elements.
    rewrite Hkey. unfold getitem. by rewrite Hr, Hc.
Qed.

Lemma composite_key_round_trip_witness :
  Str.split_chr "-" "SP-2015-03" = ["SP"; "2015"; "03"]%string
  ∧ ∃ x, rain_key_uf_year_month ["2015-03-05"; "5.5"; "SP"]%string
         = Ok ("SP-2015-03"%string, x).
Proof.
  pose proof (composite_key_round_trip "SP" "2015-03-05" "2015" "03" ["05"%string]
                eq_refl eq_refl) as (Hsplit & Hrain & _).
  split; [exact Hsplit|].
  exact (Hrain "5.5"%string float_5_5 eq_refl).
Defined.

(** ** Join and completeness filter *)

Section Join.
Context {V : Type}.
Implicit Types (pc : list (string * V)) (k : string).

(** A collection has values for [k] exactly when [k] is one of its keys. *)
Lemma truthy_values_of k pc :
  truthy (Beam.values_of k pc) = true ↔ k ∈ pc.*1.
Proof.
  unfold Beam.values_of. induction pc as [|[k' v] pc IH]; simpl.
  - rewrite elem_of_nil. split; [done|tauto].
  - rewrite filter_cons, elem_of_cons. simpl.
    destruct (decide (k' = k)) as [->|Hne]; simpl.
    + split; [by left|done].
    + rewrite IH. split; [by right|]. by intros [->|].
Qed.

Lemma filter_key_absent {B} (l : list (string * B)) k :
  k ∉ l.*1 → filter (fun b => b.1 = k) l = [].
Proof.
  induction l as [|[k' b] l IH]; [done|]. rewrite fmap_cons, not_elem_of_cons.
  intros [Hne Hnot]. rewrite filter_cons. simpl in *.
  destruct (decide (k' = k)); [congruence|by apply IH].
Qed.

(** Among elements with distinct keys, a key that occurs has one element. *)
Lemma count_key_NoDup {B} (l : list (string * B)) k :
  NoDup l.*1 → k ∈ l.*1 → length (filter (fun b => b.1 = k) l) = 1%nat.
Proof.
  induction l as [|[k' b] l IH]; simpl.
  - by intros _ ?%elem_of_nil.
  - intros [Hk' Hnd]%NoDup_cons Hin. rewrite filter_cons. simpl.
    destruct (decide (k' = k)) as [->|Hne].
    + by rewrite filter_key_absent.
    + apply IH; [done|]. apply elem_of_cons in Hin as [->|Hin]; done.
Qed.

Lemma filter_keys_NoDup {B} (P : string * B → Prop) `{∀ b, Decision (P b)}
    (l : list (string * B)) :
  NoDup l.*1 → NoDup (filter P l).*1.
Proof.
  induction l as [|b l IH]; [constructor|]. rewrite fmap_cons.
  intros [Hb Hnd]%NoDup_cons. rewrite filter_cons.
  destruct (decide (P b)); [|by apply IH].
  rewrite fmap_cons. apply NoDup_cons. split; [|by apply IH].
  intros [b' [Heq [_ Hin]%list_elem_of_filter]]%list_elem_of_fmap.
  apply Hb. rewrite Heq. apply list_elem_of_fmap. by exists b'.
Qed.

End Join.

Lemma filter_missing_values_two key (vr vd : list float) :
  filter_missing_values
    (key, list_to_map [("rain"%string, vr); ("dengue"%string, vd)])
  = Ok (truthy vr && truthy vd).
Proof.
  unfold filter_missing_values, getitem. simpl.
  rewrite lookup_insert_eq, ret_bind.
  rewrite lookup_insert_ne, lookup_insert_eq, ret_bind by done.
  by destruct vr, vd.
Qed.

(** Every bucket that is formatted gives exactly one row, in order. *)
Lemma format_rows_Ok buckets rows :
  format_rows buckets = Ok rows →
  Forall2 (fun b row => ∃ t, unpack_elements b = Ok t ∧ row = prepare_csv t ";")
    buckets rows.
Proof.
  unfold format_rows.
  destruct (Beam.Map unpack_elements buckets) as [ts|] eqn:Hts; [|done].
  rewrite ret_bind, Map_pure. intros [= <-].
  apply Map_Ok in Hts. apply Forall2_fmap_r.
  eapply Forall2_impl; [exact Hts|]. intros b t Hb. by exists t.
Qed.

(** ** Worked examples *)

(** The scenario of two dengue lines and two rain lines for [SP] in March
    2015: the unparsable-looking ["abc"] counts as [0.0], both sums are
    [10.0], and one row comes out. *)
Example end_to_end_row :
  rain_dengue
    ["2015-03-05,5.5,SP"; "2015-03-25,4.5,SP"]%string
    ["1|2015-03-10|10|3550308|Sao Paulo|SP|01000|0|0";
     "2|2015-03-20|abc|3550308|Sao Paulo|SP|01000|0|0"]%string
  = Ok ["SP;2015;03;10.0;10.0"%string].
Proof. by vm_compute. Qed.

(** A key with rain data only gives no row. *)
Example rain_only_key_absent :
  rain_dengue
    ["2015-03-05,5.5,SP"; "2015-04-01,2.0,SP"]%string
    ["1|2015-03-10|10|3550308|Sao Paulo|SP|01000|0|0"]%string
  = Ok ["SP;2015;03;5.5;10.0"%string].
Proof. by vm_compute. Qed.

(** A key that does not split into three tokens fails the formatter. *)
Example two_token_key_raises :
  rain_dengue ["2015,1.0,SP"%string]
              ["1|2015|10|3550308|Sao Paulo|SP|01000|0|0"%string]
  = Raise ValueError.
Proof. by vm_compute. Qed.

(** [float], [round] and [repr] on known values. *)
Example float_underscore : PyFloat.of_string "1_0" = Ok float_10.
Proof. by vm_compute. Qed.

Example float_blanks : PyFloat.of_string " 5.5 " = Ok float_5_5.
Proof. by vm_compute. Qed.

Example float_overflow : PyFloat.of_string "1e400" = Ok (S754_infinity false).
Proof. by vm_compute. Qed.

Example float_nan : PyFloat.of_string "NaN" = Ok S754_nan.
Proof. by vm_compute. Qed.

Example float_empty : PyFloat.of_string "" = Raise ValueError.
Proof. by vm_compute. Qed.

Example float_hex : PyFloat.of_string "0x10" = Raise ValueError.
Proof. by vm_compute. Qed.

Example float_bad_exponent : PyFloat.of_string "1e" = Raise ValueError.
Proof. by vm_compute. Qed.

Example repr_sum_tenths :
  (x ← PyFloat.of_string "0.1"; y ← PyFloat.of_string "0.2";
   Ok (PyFloat.repr (PyFloat.add x y)))
  = Ok "0.30000000000000004"%string.
Proof. by vm_compute. Qed.

Example repr_exponent :
  (PyFloat.repr <$> PyFloat.of_string "10000000000000000")
  = Ok "1e+16"%string.
Proof. by vm_compute. Qed.

Example repr_small :
  (PyFloat.repr <$> PyFloat.of_string "0.00001") = Ok "1e-05"%string.
Proof. by vm_compute. Qed.

Example round_half_even :
  (x ← PyFloat.of_string "0.125"; r ← PyFloat.round x 2; Ok (PyFloat.repr r))
  = Ok "0.12"%string.
Proof. by vm_compute. Qed.

Example round_binary_value :
  (x ← PyFloat.of_string "2.675"; r ← PyFloat.round x 2; Ok (PyFloat.repr r))
  = Ok "2.67"%string.
Proof. by vm_compute. Qed.

(** * Further properties of the transforms *)

(** ** More on [split] and [join] *)

Import Str StrFacts.

Lemma append_assoc s t u : (s +:+ t) +:+ u = s +:+ (t +:+ u).
Proof. induction s as [|a s IH]; [done|]. by rewrite !append_cons, IH. Qed.

Lemma length_append s t :
  String.length (s +:+ t) = (String.length s + String.length t)%nat.
Proof. induction s as [|a s IH]; [done|]. rewrite append_cons. simpl. by rewrite IH. Qed.

Lemma join_cons2 sep x y l : join sep (x :: y :: l) = x +:+ sep +:+ join sep (y :: l).
Proof. reflexivity. Qed.

(** Splitting at a separator splits the two sides apart. *)
Lemma split_chr_sep c a b :
  split_chr c (a +:+ String c b) = split_chr c a ++ split_chr c b.
Proof.
  induction a as [|x a IH].
  - simpl. by rewrite Ascii.eqb_refl.
  - rewrite append_cons. cbn [split_chr]. rewrite IH.
    destruct (Ascii.eqb x c); [done|].
    by destruct (split_chr_cons c a) as (h & t & ->).
Qed.

Lemma join_split_chr c s : join (String c EmptyString) (split_chr c s) = s.
Proof.
  induction s as [|a s IH]; [done|]. cbn [split_chr].
  destruct (Ascii.eqb_spec a c) as [->|Hne].
  - destruct (split_chr_cons c s) as (h & t & Hs). rewrite Hs in IH |- *.
    rewrite join_cons2, IH. reflexivity.
  - destruct (split_chr_cons c s) as (h & t & Hs). rewrite Hs in IH |- *.
    destruct t as [|h' t].
    + simpl in *. by rewrite IH.
    + rewrite join_cons2 in *. by rewrite append_cons, IH.
Qed.

Lemma split_chr_join c l :
  l ≠ [] → Forall (fun t => contains_chr c t = false) l →
  split_chr c (join (String c EmptyString) l) = l.
Proof.
  intros Hne Hfree. induction Hfree as [|x l Hx Hl IH]; [done|].
  destruct l as [|y l].
  - simpl. by apply split_chr_id.
  - rewrite join_cons2, append_cons. change (EmptyString +:+ ?z) with z.
    rewrite split_chr_app by done. by rewrite IH.
Qed.

Lemma length_split_chr c s : length (split_chr c s) = S (count_chr c s).
Proof.
  induction s as [|a s IH]; [done|]. cbn [split_chr count_chr].
  destruct (Ascii.eqb a c); simpl; [by rewrite IH|].
  destruct (split_chr_cons c s) as (h & t & Hs). rewrite Hs in IH |- *.
  exact IH.
Qed.

Lemma prefix_app p s : String.prefix p s = true → ∃ r, s = p +:+ r.
Proof.
  revert s. induction p as [|a p IH]; intros s; [by exists s|].
  destruct s as [|b s]; [done|]. simpl.
  destruct (ascii_dec a b) as [->|]; [|done].
  intros [r ->]%IH. by exists r.
Qed.

Lemma drop_chars_app p r : drop_chars (String.length p) (p +:+ r) = r.
Proof. induction p as [|a p IH]; [done|]. by rewrite append_cons. Qed.

(** The fields of the scan, joined by the separator, give back what was
    scanned after the characters still to skip. *)
Lemma join_split_from sep k cur s :
  sep ≠ EmptyString → (k <= String.length s)%nat →
  join sep (split_from sep k cur s) = cur +:+ drop_chars k s.
Proof.
  intros Hsep. revert k cur. induction s as [|a s IH]; intros k cur Hk.
  - simpl in Hk. assert (k = 0%nat) as -> by lia. simpl. by rewrite append_empty_r.
  - cbn [split_from]. destruct k as [|k].
    + cbn [drop_chars].
      destruct (String.prefix sep (String a s)) eqn:Hp.
      * apply prefix_app in Hp as [r Hr].
        destruct sep as [|b sep']; [done|]. rewrite append_cons in Hr.
        injection Hr as <- ->. cbn [String.length Nat.pred].
        destruct (split_from_cons (String a sep') (String.length sep') EmptyString
                    (sep' +:+ r)) as (h & t & Hs).
        pose proof (IH (String.length sep') EmptyString) as IH'.
        rewrite Hs in IH' |- *. rewrite join_cons2, IH'.
        -- by rewrite drop_chars_app, append_cons.
        -- rewrite length_append. lia.
      * rewrite IH by lia. cbn [drop_chars]. by rewrite append_snoc.
    + cbn [drop_chars]. apply IH. simpl in Hk. lia.
Qed.

(** ** Parser and formatter *)

(** X1.  [text_to_list] raises [ValueError] exactly when the delimiter is
    empty; for every other delimiter, of any length, it returns fields
    that, joined again by the delimiter, give back the line. *)
Theorem text_to_list_join (line delimiter : string) :
  match text_to_list line delimiter with
  | Ok fields => delimiter ≠ EmptyString ∧ Str.join delimiter fields = line
  | Raise e => delimiter = EmptyString ∧ e = ValueError
  end.
Proof.
  unfold text_to_list, Str.split. destruct delimiter as [|a sep]; [done|].
  split; [done|]. by rewrite join_split_from by (done || simpl; lia).
Qed.

(** X2.  With a one-character delimiter, [text_to_list] returns one field
    more than the line has delimiters (a line without one, the empty line
    too, is a single field), and no field holds the delimiter. *)
Theorem text_to_list_fields (line : string) (c : ascii) :
  ∃ fields,
    text_to_list line (String c EmptyString) = Ok fields
    ∧ length fields = S (count_chr c line)
    ∧ Forall (fun field => Str.contains_chr c field = false) fields.
Proof.
  exists (Str.split_chr c line). split_and!.
  - apply StrFacts.split_single.
  - apply length_split_chr.
  - apply StrFacts.split_chr_free.
Qed.

(** X3.  A row made by [prepare_csv] from five values that do not hold the
    delimiter splits back, by [text_to_list] with that delimiter, into
    exactly these five values. *)
Theorem prepare_csv_split (c : ascii) (uf year month rainfall cases : string) :
  Forall (fun field => Str.contains_chr c field = false)
    [uf; year; month; rainfall; cases] →
  text_to_list (prepare_csv (uf, year, month, rainfall, cases) (String c EmptyString))
    (String c EmptyString)
  = Ok [uf; year; month; rainfall; cases].
Proof.
  intros Hfree. unfold text_to_list, prepare_csv.
  by rewrite StrFacts.split_single, split_chr_join.
Qed.

Lemma prepare_csv_split_witness :
  text_to_list (prepare_csv ("SP", "2015", "03", "10.0", "10.0")%string ";") ";"
  = Ok ["SP"; "2015"; "03"; "10.0"; "10.0"]%string.
Proof.
  apply (prepare_csv_split ";" "SP" "2015" "03" "10.0" "10.0").
  repeat (constructor; [reflexivity|]). constructor.
Defined.

Lemma take_split_free c n s :
  Forall (fun t => Str.contains_chr c t = false) (take n (Str.split_chr c s)).
Proof. apply Forall_take, StrFacts.split_chr_free. Qed.

Lemma split_join_take c n s :
  (0 < n)%nat →
  Str.split_chr c (Str.join (String c EmptyString) (take n (Str.split_chr c s)))
  = take n (Str.split_chr c s).
Proof.
  intros Hn. apply split_chr_join; [|apply take_split_free].
  destruct (StrFacts.split_chr_cons c s) as (h & t & ->).
  by destruct n; [lia|].
Qed.

(** X5.  [transform_dates] raises [KeyError] for ['data_iniSE'] when the
    record lacks it.  Otherwise it returns the record with ['ano_mes'] set
    to a string whose ['-']-separated tokens are the first two tokens of the
    date (the whole date when it holds no ['-']), and every other entry is
    as it was. *)
Theorem transform_dates_ano_mes (element : gmap string string) :
  match element !! "data_iniSE"%string with
  | None => transform_dates element = Raise (KeyError "data_iniSE")
  | Some date =>
      ∃ element' ano_mes,
        transform_dates element = Ok element'
        ∧ element' !! "ano_mes"%string = Some ano_mes
        ∧ Str.split_chr "-" ano_mes = take 2 (Str.split_chr "-" date)
        ∧ (Str.contains_chr "-" date = false → ano_mes = date)
        ∧ ∀ name, name ≠ "ano_mes"%string → element' !! name = element !! name
  end.
Proof.
  unfold transform_dates. destruct (element !! "data_iniSE"%string) as [date|]; [|done].
  eexists _, _. split_and!; [done|apply lookup_insert_eq| | |].
  - apply split_join_take. lia.
  - intros Hfree. by rewrite StrFacts.split_chr_id.
  - intros name Hne. by rewrite lookup_insert_ne.
Qed.

(** ** Record level *)

Section DictLast.
Implicit Types (pairs : list (string * string)) (m : gmap string string).

Lemma py_dict_fold_absent pairs m k :
  k ∉ pairs.*1 →
  fold_left (fun m kv => <[kv.1 := kv.2]> m) pairs m !! k = m !! k.
Proof.
  revert m. induction pairs as [|[k' v'] pairs IH]; intros m; [done|].
  rewrite fmap_cons, not_elem_of_cons. intros [Hne Hnot]. simpl in *.
  rewrite IH by done. by rewrite lookup_insert_ne.
Qed.

(** The pair that counts for a key is the last one with that key. *)
Lemma py_dict_fold_last pairs m i k v :
  pairs !! i = Some (k, v) →
  (∀ j v', (i < j)%nat → pairs !! j ≠ Some (k, v')) →
  fold_left (fun m kv => <[kv.1 := kv.2]> m) pairs m !! k = Some v.
Proof.
  revert m i. induction pairs as [|[k0 v0] pairs IH]; intros m i; [done|].
  destruct i as [|i]; simpl.
  - intros [= -> ->] Hlast. rewrite py_dict_fold_absent.
    + apply lookup_insert_eq.
    + intros [[k' v'] [Hk [j Hj]%list_elem_of_lookup]]%list_elem_of_fmap.
      simpl in Hk. subst k'. apply (Hlast (S j) v'); [lia|done].
  - intros Hi Hlast. apply (IH _ i); [done|].
    intros j v' Hj. apply (Hlast (S j) v'). lia.
Qed.
End DictLast.

Lemma zip_lookup_Some_2 {A B} (l : list A) (k : list B) i a b :
  l !! i = Some a → k !! i = Some b → zip l k !! i = Some (a, b).
Proof.
  revert k i. induction l as [|x l IH]; intros [|y k] [|i]; simpl; try done.
  - by intros [= ->] [= ->].
  - apply IH.
Qed.

(** X4.  [list_to_dictionary] maps a schema name to the field at its
    position, provided the field exists and no later position that has a
    field carries the same name: with a repeated name the last position
    counts. *)
Theorem list_to_dictionary_lookup (element columns : list string) (i : nat)
    (name value : string) :
  columns !! i = Some name →
  element !! i = Some value →
  (∀ j, (i < j)%nat → (j < length element)%nat → columns !! j ≠ Some name) →
  list_to_dictionary element columns !! name = Some value.
Proof.
  intros Hc He Hlast. unfold list_to_dictionary, py_dict.
  apply py_dict_fold_last with (i := i).
  - by apply zip_lookup_Some_2.
  - intros j v' Hj [Hcj Hej]%zip_lookup_Some.
    apply (Hlast j); [done| |done]. by eapply lookup_lt_Some.
Qed.

Lemma list_to_dictionary_lookup_witness :
  list_to_dictionary ["1"; "2015-03-10"; "10"]%string dengue_columns !! "casos"%string
  = Some "10"%string
  ∧ list_to_dictionary ["x"; "y"]%string ["a"; "a"]%string !! "a"%string
    = Some "y"%string.
Proof.
  split.
  - apply (list_to_dictionary_lookup _ _ 2); [reflexivity|reflexivity|].
    intros j Hlt Hlen. simpl in Hlen. lia.
  - apply (list_to_dictionary_lookup _ _ 1); [reflexivity|reflexivity|].
    intros j Hlt Hlen. simpl in Hlen. lia.
Defined.

Lemma geb_zero_facts x :
  PyFloat.geb x PyFloat.zero = true →
  PyFloat.ltb x PyFloat.zero = false ∧ x ≠ S754_nan.
Proof. by destruct x as [[]|[]| |[] m e]. Qed.

(** X6.  Whatever [rain_key_uf_year_month] returns is a measure [x] with
    [x >= 0.0]: it is never below zero and never a NaN (a rainfall that
    parses as NaN is replaced by [0.0] like a negative one). *)
Theorem rain_key_nonnegative (element : list string) (key : string) (x : float) :
  rain_key_uf_year_month element = Ok (key, x) →
  PyFloat.geb x PyFloat.zero = true
  ∧ PyFloat.ltb x PyFloat.zero = false
  ∧ x ≠ S754_nan.
Proof.
  intros H.
  assert (PyFloat.geb x PyFloat.zero = true) as Hge.
  { unfold rain_key_uf_year_month in H.
    destruct element as [|date [|rainfall [|uf [|]]]]; try done.
    destruct (PyFloat.of_string rainfall) as [y|] eqn:Hy; [|done].
    rewrite ret_bind in H.
    destruct (PyFloat.geb y PyFloat.zero) eqn:Hgeb.
    - rewrite ret_bind in H. by injection H as _ <-.
    - by injection H as _ <-. }
  split; [done|]. by apply geb_zero_facts.
Qed.

Lemma rain_key_nonnegative_witness :
  PyFloat.geb PyFloat.zero PyFloat.zero = true
  ∧ PyFloat.ltb PyFloat.zero PyFloat.zero = false
  ∧ PyFloat.zero ≠ S754_nan.
Proof.
  apply (rain_key_nonnegative ["2015-03-05"; "nan"; "SP"]%string "SP-2015-03").
  reflexivity.
Defined.

Lemma unpack_elements_tokens key (data : gmap string (list float)) :
  length (Str.split_chr "-" key) ≠ 3%nat
  ↔ unpack_elements (key, data) = Raise ValueError.
Proof.
  unfold unpack_elements.
  destruct (Str.split_chr "-" key) as [|a [|b [|c [|]]]]; simpl;
    try (split; [done|lia]).
  split; [lia|]. unfold getitem, first.
  destruct (data !! "rain"%string) as [[|]|]; try done;
    destruct (data !! "dengue"%string) as [[|]|]; done.
Qed.

(** X7.  The key that [rain_key_uf_year_month] returns has as many
    ['-']-separated tokens as the region has, plus the date's, at most two.
    [unpack_elements] raises [ValueError] on that key exactly when this
    number is not three: a region holding ['-'], or a date without one,
    fails the formatter. *)
Theorem rain_key_token_count (date rainfall uf key : string) (x : float) :
  rain_key_uf_year_month [date; rainfall; uf] = Ok (key, x) →
  length (Str.split_chr "-" key)
  = (length (Str.split_chr "-" uf) + length (Str.split_chr "-" date) `min` 2)%nat
  ∧ ∀ data : gmap string (list float),
      (length (Str.split_chr "-" uf) + length (Str.split_chr "-" date) `min` 2)%nat
      ≠ 3%nat
      ↔ unpack_elements (key, data) = Raise ValueError.
Proof.
  intros H.
  assert (key = uf +:+ "-" +:+ Str.join "-" (take 2 (Str.split_chr "-" date)))
    as Hkey.
  { unfold rain_key_uf_year_month in H.
    destruct (PyFloat.of_string rainfall) as [y|]; [|done]. rewrite ret_bind in H.
    destruct (PyFloat.geb y PyFloat.zero).
    - rewrite ret_bind in H. by injection H as <- _.
    - by injection H as <- _. }
  assert (length (Str.split_chr "-" key)
          = (length (Str.split_chr "-" uf) + length (Str.split_chr "-" date) `min` 2)%nat)
    as Hlen.
  { rewrite Hkey. change ("-" +:+ ?z) with (String "-" z).
    rewrite split_chr_sep, length_app, split_join_take, length_take by lia.
    lia. }
  split; [done|]. intros data. rewrite <-Hlen. apply unpack_elements_tokens.
Qed.

Lemma rain_key_token_count_witness :
  unpack_elements ("S-P-2015-03"%string, (∅ : gmap string (list float)))
  = Raise ValueError.
Proof.
  apply (proj2 (rain_key_token_count "2015-03-05" "5.5" "S-P" "S-P-2015-03"
                  float_5_5 eq_refl)).
  simpl. lia.
Defined.

(** What a group yields when it runs to its end. *)
Lemma dengue_cases_Forall2 (uf : string)
    (data : list (gmap string string)) (pairs : list (string * float)) :
  exhaust (dengue_cases (uf, data)) = Ok pairs
  ↔ Forall2 (fun d p =>
               ∃ casos, d !! "casos"%string = Some casos
                 ∧ p.1 = uf +:+ "-" +:+ format_get (d !! "ano_mes"%string)
                 ∧ if PyFloat.has_digit casos
                   then PyFloat.of_string casos = Ok p.2
                   else p.2 = PyFloat.zero)
       data pairs.
Proof.
  revert pairs. induction data as [|d data IH]; intros pairs.
  - simpl. split; [intros [= <-]; constructor|by inversion 1].
  - cbn [dengue_cases dengue_cases_loop] in *. split.
    + destruct (d !! "casos"%string) as [casos|] eqn:Hc; [|done].
      assert (∀ p, exhaust (Yield p (dengue_cases_loop uf data)) = Ok pairs →
                   ∃ rest, pairs = p :: rest
                           ∧ exhaust (dengue_cases_loop uf data) = Ok rest) as Hstep.
      { intros p. cbn [exhaust].
        destruct (exhaust (dengue_cases_loop uf data)) as [rest|]; [|done].
        intros [= <-]. by exists rest. }
      destruct (PyFloat.has_digit casos) eqn:Hd.
      * destruct (PyFloat.of_string casos) as [x|] eqn:Hx; [|done].
        intros (rest & -> & Hrest)%Hstep. constructor; [|by apply IH].
        exists casos. rewrite Hd. by split_and!.
      * intros (rest & -> & Hrest)%Hstep. constructor; [|by apply IH].
        exists casos. rewrite Hd. by split_and!.
    + inversion 1 as [|? [k x] ? rest (casos & Hc & Hk & Hx) Hrest]; subst.
      rewrite Hc. simpl in Hk, Hx. apply IH in Hrest.
      destruct (PyFloat.has_digit casos).
      * rewrite Hx. cbn [exhaust]. rewrite Hrest. by rewrite Hk.
      * cbn [exhaust]. rewrite Hrest. by rewrite Hk, Hx.
Qed.

(** X8.  [dengue_cases] runs to its end exactly when every record of the
    group has ['casos'] set and, where a digit occurs in it, parsable; it
    then yields one pair per record, in order: the record's key with the
    parsed value, or with [0.0] when no digit occurs. *)
Theorem dengue_cases_one_pair_each (uf : string)
    (data : list (gmap string string)) (pairs : list (string * float)) :
  exhaust (dengue_cases (uf, data)) = Ok pairs
  ↔ Forall2 (fun d p =>
               ∃ casos, d !! "casos"%string = Some casos
                 ∧ p.1 = uf +:+ "-" +:+ format_get (d !! "ano_mes"%string)
                 ∧ if PyFloat.has_digit casos
                   then PyFloat.of_string casos = Ok p.2
                   else p.2 = PyFloat.zero)
       data pairs.
Proof. apply dengue_cases_Forall2. Qed.


(** X9.  A bucket that [filter_missing_values] accepts has a first rain
    value and a first dengue value, so [unpack_elements] on it raises
    neither [KeyError] nor [IndexError]: it returns the three tokens of the
    key with these two values printed, or raises [ValueError] when the key
    does not have three tokens. *)
Theorem filter_then_unpack (key : string) (data : gmap string (list float)) :
  filter_missing_values (key, data) = Ok true →
  ∃ r rs d ds,
    data !! "rain"%string = Some (r :: rs)
    ∧ data !! "dengue"%string = Some (d :: ds)
    ∧ unpack_elements (key, data)
      = match Str.split_chr "-" key with
        | [uf; year; month] => Ok (uf, year, month, PyFloat.repr r, PyFloat.repr d)
        | _ => Raise ValueError
        end.
Proof.
  unfold filter_missing_values, unpack_elements, getitem.
  destruct (data !! "rain"%string) as [[|r rs]|]; try done;
    destruct (data !! "dengue"%string) as [[|d ds]|]; try done.
  intros _. exists r, rs, d, ds. split_and!; [done..|].
  by destruct (Str.split_chr "-" key) as [|a [|b [|c [|]]]].
Qed.

(** ** The rain branch *)

Section MapMore.
Context {A B : Type} (f : A → result B).

(** A [Map] that raises does so with the exception of one of its elements. *)
Lemma Map_raise_elem l e :
  Beam.Map f l = Raise e → ∃ a, a ∈ l ∧ f a = Raise e.
Proof.
  induction l as [|a l IH]; [done|]. rewrite Map_cons.
  destruct (f a) as [b|e'] eqn:Ha.
  - destruct (Beam.Map f l) as [bs|e'']; [done|]. intros [= ->].
    destruct (IH eq_refl) as (a' & Hin & Ha'). exists a'. split; [by right|done].
  - intros [= ->]. exists a. split; [by left|done].
Qed.

(** Every result of a [Map] comes from an element. *)
Lemma Map_Ok_elem_inv l l' b :
  Beam.Map f l = Ok l' → b ∈ l' → ∃ a, a ∈ l ∧ f a = Ok b.
Proof.
  intros H%Map_Ok Hb. apply list_elem_of_lookup in Hb as [i Hi].
  destruct (Forall2_lookup_r _ _ _ _ _ H Hi) as (a & Ha & Hab).
  exists a. split; [|done]. by eapply list_elem_of_lookup_2.
Qed.

(** A [Map] returns when its function returns on every element. *)
Lemma Map_returns l :
  (∀ a, a ∈ l → is_raise (f a) = false) → ∃ l', Beam.Map f l = Ok l'.
Proof.
  induction l as [|a l IH]; intros Hf; [by exists []|]. rewrite Map_cons.
  pose proof (Hf a ltac:(left)) as Ha. destruct (f a) as [b|]; [|done].
  destruct IH as [bs ->]; [|by eexists].
  intros a' Ha'. apply Hf. by right.
Qed.
End MapMore.

Lemma FlatMap_Map {A B} (f : A → generator B) (pc : list A) :
  Beam.FlatMap f pc
  = ((fun yields => concat yields) <$> Beam.Map (fun a => exhaust (f a)) pc).
Proof. reflexivity. Qed.

Section Grouping.
Context {V : Type}.
Implicit Types (pc : list (string * V)) (k : string).

Lemma elem_of_values_of k v pc : v ∈ Beam.values_of k pc ↔ (k, v) ∈ pc.
Proof.
  unfold Beam.values_of. rewrite list_elem_of_fmap. split.
  - intros ([k' v'] & -> & [Hk Hin]%list_elem_of_filter). simpl in Hk. by subst.
  - intros Hin. exists (k, v). split; [done|]. by apply list_elem_of_filter.
Qed.

Lemma elem_of_GroupByKey k vs pc :
  (k, vs) ∈ Beam.GroupByKey pc ↔ k ∈ pc.*1 ∧ vs = Beam.values_of k pc.
Proof.
  unfold Beam.GroupByKey, Beam.keys. rewrite list_elem_of_fmap. split.
  - intros (k' & Heq & Hin). injection Heq as -> ->.
    split; [|done]. by apply (proj1 (elem_of_remove_dups _ _)) in Hin.
  - intros [Hin ->]. exists k. split; [done|]. by apply elem_of_remove_dups.
Qed.

Lemma GroupByKey_keys pc : (Beam.GroupByKey pc).*1 = remove_dups pc.*1.
Proof.
  unfold Beam.GroupByKey, Beam.keys. rewrite <-list_fmap_compose.
  apply list_fmap_id.
Qed.

Lemma CombinePerKey_keys {W} (f : list V → W) pc :
  (Beam.CombinePerKey f pc).*1 = remove_dups pc.*1.
Proof.
  unfold Beam.CombinePerKey. rewrite <-list_fmap_compose.
  rewrite <-GroupByKey_keys. done.
Qed.
End Grouping.

(** [round] raises nothing but [OverflowError]. *)
Lemma round_raise x n e : PyFloat.round x n = Raise e → e = OverflowError.
Proof.
  unfold PyFloat.round. repeat (case_match; try congruence).
Qed.

Lemma round_rainfall_raise element e :
  round_rainfall element = Raise e → e = OverflowError.
Proof.
  destruct element as [key x]. unfold round_rainfall.
  destruct (PyFloat.round x 6) as [r|e'] eqn:Hr; [done|].
  intros [= <-]. by eapply round_raise.
Qed.

Lemma round_rainfall_key element key r :
  round_rainfall element = Ok (key, r) → key = element.1.
Proof. destruct element as [k x]. by intros [-> _]%round_rainfall_Ok. Qed.

Lemma Forall2_fmap_fst {A B C} (l : list (C * A)) (l' : list (C * B)) :
  Forall2 (fun a b => b.1 = a.1) l l' → l'.*1 = l.*1.
Proof.
  induction 1 as [|a b l l' Hab _ IH]; [done|].
  by rewrite !fmap_cons, Hab, IH.
Qed.

(** The stages of [rain]. *)
Lemma rain_stages lines :
  rain lines
  = (keyed ← Beam.Map rain_key_uf_year_month
               (Str.split_from "," 0 EmptyString <$> lines);
     Beam.Map round_rainfall (Beam.CombinePerKey py_sum keyed)).
Proof.
  unfold rain.
  by rewrite (Map_pure (fun e => Str.split_from "," 0 EmptyString e)), ret_bind.
Qed.

Lemma rain_key_Ok element key x :
  rain_key_uf_year_month element = Ok (key, x) →
  ∃ date rainfall uf,
    element = [date; rainfall; uf]
    ∧ is_raise (PyFloat.of_string rainfall) = false
    ∧ key = uf +:+ "-" +:+ Str.join "-" (take 2 (Str.split_chr "-" date)).
Proof.
  unfold rain_key_uf_year_month.
  destruct element as [|date [|rainfall [|uf [|]]]]; try done.
  destruct (PyFloat.of_string rainfall) as [y|] eqn:Hy; [|done]. rewrite ret_bind.
  intros H. exists date, rainfall, uf. split_and!; [done|by rewrite Hy|].
  destruct (PyFloat.geb y PyFloat.zero).
  - rewrite ret_bind in H. by injection H as <- _.
  - by injection H as <- _.
Qed.

Lemma rain_key_returns date rainfall uf :
  is_raise (PyFloat.of_string rainfall) = false →
  ∃ x, rain_key_uf_year_month [date; rainfall; uf]
       = Ok (uf +:+ "-" +:+ Str.join "-" (take 2 (Str.split_chr "-" date)), x).
Proof.
  unfold rain_key_uf_year_month.
  destruct (PyFloat.of_string rainfall) as [y|]; [|done]. intros _.
  rewrite ret_bind. destruct (PyFloat.geb y PyFloat.zero); by eexists.
Qed.

(** X12.  The rain branch raises [ValueError] exactly when one of its
    lines does not split on [','] into three fields with a rainfall that
    [float] accepts. *)
Theorem rain_value_error_iff (lines : list string) :
  rain lines = Raise ValueError
  ↔ ∃ line, line ∈ lines
      ∧ ∀ date rainfall uf,
          text_to_list line "," = Ok [date; rainfall; uf] →
          is_raise (PyFloat.of_string rainfall) = true.
Proof.
  rewrite rain_stages. split.
  - destruct (Beam.Map rain_key_uf_year_month _) as [keyed|e] eqn:Hkeyed.
    + rewrite ret_bind. intros (a & _ & Ha)%Map_raise_elem.
      by apply round_rainfall_raise in Ha.
    + intros [= ->].
      apply Map_raise_elem in Hkeyed as (fields & Hin & Hraise).
      apply list_elem_of_fmap in Hin as (line & -> & Hin).
      exists line. split; [done|]. intros date rainfall uf [= Hsplit].
      rewrite Hsplit in Hraise. unfold rain_key_uf_year_month in Hraise.
      destruct (PyFloat.of_string rainfall) as [y|]; [|done].
      rewrite ret_bind in Hraise.
      by destruct (PyFloat.geb y PyFloat.zero).
  - intros (line & Hin & Hbad). apply bind_Raise.
    apply Map_raise_only; [apply rain_key_raise|].
    apply Map_raise with (a := Str.split_from "," 0 EmptyString line).
    { apply list_elem_of_fmap. by exists line. }
    destruct (Str.split_from "," 0 EmptyString line)
      as [|date [|rainfall [|uf [|]]]] eqn:Hsplit; try done.
    rewrite rain_key_unparsable; [done|]. apply (Hbad date rainfall uf).
    unfold text_to_list, Str.split. by rewrite Hsplit.
Qed.

Lemma rain_Ok_keys lines out :
  rain lines = Ok out →
  ∃ keyed,
    Beam.Map rain_key_uf_year_month (Str.split_from "," 0 EmptyString <$> lines)
    = Ok keyed
    ∧ out.*1 = remove_dups keyed.*1.
Proof.
  rewrite rain_stages.
  destruct (Beam.Map rain_key_uf_year_month _) as [keyed|] eqn:Hkeyed; [|done].
  rewrite ret_bind. intros Hout. exists keyed. split; [done|].
  rewrite <-(CombinePerKey_keys py_sum). apply Forall2_fmap_fst.
  apply Map_Ok in Hout. eapply Forall2_impl; [exact Hout|].
  intros a [k r] Hr. by apply round_rainfall_key in Hr.
Qed.

Lemma rain_Ok_NoDup lines out : rain lines = Ok out → NoDup out.*1.
Proof. intros (keyed & _ & ->)%rain_Ok_keys. apply NoDup_remove_dups. Qed.

(** X14.  When the rain branch returns, its output has each key once, and
    its keys are exactly the keys derived from the region and the first two
    date tokens of the input lines. *)
Theorem rain_output_keys (lines : list string) (out : list (string * float)) :
  rain lines = Ok out →
  NoDup out.*1
  ∧ ∀ key, key ∈ out.*1
      ↔ ∃ line date rainfall uf,
          line ∈ lines
          ∧ text_to_list line "," = Ok [date; rainfall; uf]
          ∧ key = uf +:+ "-" +:+ Str.join "-" (take 2 (Str.split_chr "-" date)).
Proof.
  rewrite rain_stages.
  destruct (Beam.Map rain_key_uf_year_month _) as [keyed|] eqn:Hkeyed; [|done].
  rewrite ret_bind. intros Hout.
  assert (out.*1 = remove_dups keyed.*1) as Hkeys.
  { rewrite <-(CombinePerKey_keys py_sum). apply Forall2_fmap_fst.
    apply Map_Ok in Hout. eapply Forall2_impl; [exact Hout|].
    intros a [k r] Hr. by apply round_rainfall_key in Hr. }
  rewrite Hkeys. split; [apply NoDup_remove_dups|].
  intros key. rewrite elem_of_remove_dups, list_elem_of_fmap. split.
  - intros ([k x] & -> & Hin).
    destruct (Map_Ok_elem_inv _ _ _ _ Hkeyed Hin) as (fields & Hf & Hkey).
    apply list_elem_of_fmap in Hf as (line & -> & Hline).
    apply rain_key_Ok in Hkey as (date & rainfall & uf & Hsplit & _ & ->).
    exists line, date, rainfall, uf. split_and!; [done| |done].
    unfold text_to_list, Str.split. by rewrite Hsplit.
  - intros (line & date & rainfall & uf & Hline & [= Hsplit] & ->).
    assert ([date; rainfall; uf] ∈ Str.split_from "," 0 EmptyString <$> lines)
      as Hin by (apply list_elem_of_fmap; by exists line).
    destruct (Map_Ok_elem _ _ _ _ Hkeyed Hin) as ([k x] & Hb & Hkey).
    exists (k, x). split; [|done].
    apply rain_key_Ok in Hkey as (? & ? & ? & [= <- <- <-] & _ & ->). done.
Qed.

(** ** The dengue branch *)

Lemma elem_of_concat {A} (x : A) (ls : list (list A)) :
  x ∈ concat ls ↔ ∃ l, l ∈ ls ∧ x ∈ l.
Proof.
  induction ls as [|l ls IH]; simpl.
  - split; [by intros ?%elem_of_nil|by intros (l & ?%elem_of_nil & _)].
  - rewrite elem_of_app, IH. split.
    + intros [Hx|(l' & Hl' & Hx)]; [exists l; split; [by left|done]|].
      exists l'. split; [by right|done].
    + intros (l' & [->|Hl']%elem_of_cons & Hx); [by left|]. right. by exists l'.
Qed.

Lemma FlatMap_Ok {A B} (f : A → generator B) pc out :
  Beam.FlatMap f pc = Ok out
  ↔ ∃ yields, Beam.Map (fun a => exhaust (f a)) pc = Ok yields
              ∧ out = concat yields.
Proof.
  rewrite FlatMap_Map. destruct (Beam.Map _ pc) as [yields|e]; simpl.
  - split; [intros [= <-]; by exists yields|by intros (? & [= <-] & ->)].
  - split; [done|by intros (? & ? & _)].
Qed.

Lemma FlatMap_Raise {A B} (f : A → generator B) pc e :
  Beam.FlatMap f pc = Raise e → ∃ a, a ∈ pc ∧ exhaust (f a) = Raise e.
Proof.
  rewrite FlatMap_Map. destruct (Beam.Map _ pc) as [yields|e'] eqn:Hm; [done|].
  intros [= ->]. by apply Map_raise_elem in Hm.
Qed.

Lemma text_to_list_pipe line :
  text_to_list line "|" = Ok (Str.split_from "|" 0 EmptyString line).
Proof. reflexivity. Qed.

(** With the schema of the dengue file, a name is mapped to the field at its
    position. *)
Lemma column_lookup (fields : list string) (name : string) (i : nat) :
  dengue_columns !! i = Some name →
  list_to_dictionary fields dengue_columns !! name = fields !! i.
Proof.
  intros Hi. destruct (fields !! i) as [v|] eqn:Hv.
  - unfold list_to_dictionary, py_dict. apply py_dict_fold_last with (i := i).
    + by apply zip_lookup_Some_2.
    + intros j v' Hj [Hcj _]%zip_lookup_Some.
      pose proof (NoDup_lookup _ _ _ _ dengue_columns_NoDup Hi Hcj). lia.
  - apply (column_unset fields name i Hi). by apply lookup_ge_None.
Qed.

Lemma transform_dates_Ok element element' :
  transform_dates element = Ok element' →
  ∃ date, element !! "data_iniSE"%string = Some date
    ∧ element'
      = <["ano_mes"%string := Str.join "-" (take 2 (Str.split_chr "-" date))]> element.
Proof.
  unfold transform_dates. destruct (element !! "data_iniSE"%string) as [date|]; [|done].
  intros [= <-]. by exists date.
Qed.

Lemma transform_dates_raise element e :
  transform_dates element = Raise e → e = KeyError "data_iniSE".
Proof.
  unfold transform_dates. destruct (element !! "data_iniSE"%string); [done|].
  by intros [= <-].
Qed.

Lemma uf_key_Ok element k element' :
  uf_key element = Ok (k, element') →
  element' = element ∧ element !! "uf"%string = Some k.
Proof.
  unfold uf_key. destruct (element !! "uf"%string) as [key|]; [|done].
  by intros [= <- <-].
Qed.

Lemma uf_key_raise element e : uf_key element = Raise e → e = KeyError "uf".
Proof.
  unfold uf_key. destruct (element !! "uf"%string); [done|]. by intros [= <-].
Qed.

(** A group of records that all have ['casos'] raises nothing but
    [ValueError]. *)
Lemma dengue_cases_raise uf data e :
  Forall (fun d : gmap string string => is_Some (d !! "casos"%string)) data →
  exhaust (dengue_cases (uf, data)) = Raise e → e = ValueError.
Proof.
  induction 1 as [|d data [casos Hc] _ IH]; [done|].
  cbn [dengue_cases dengue_cases_loop] in *. rewrite Hc.
  assert (∀ p, exhaust (Yield p (dengue_cases_loop uf data)) = Raise e →
               e = ValueError) as Hstep.
  { intros p. cbn [exhaust].
    destruct (exhaust (dengue_cases_loop uf data)); [done|].
    intros [= ->]. by apply IH. }
  destruct (PyFloat.has_digit casos); [|by apply Hstep].
  destruct (PyFloat.of_string casos) as [x|e'] eqn:Hx; [by apply Hstep|].
  intros [= <-]. by eapply of_string_raise.
Qed.

(** What the keyed records of the dengue branch are. *)
Lemma dengue_keyed lines dated keyed :
  Beam.Map transform_dates (dengue_dict <$> lines) = Ok dated →
  Beam.Map uf_key dated = Ok keyed →
  ∀ k d, (k, d) ∈ keyed
    ↔ ∃ line date,
        line ∈ lines
        ∧ dengue_dict line !! "data_iniSE"%string = Some date
        ∧ dengue_dict line !! "uf"%string = Some k
        ∧ d = <["ano_mes"%string := Str.join "-" (take 2 (Str.split_chr "-" date))]>
                (dengue_dict line).
Proof.
  intros Hdated Hkeyed k d. split.
  - intros Hin.
    destruct (Map_Ok_elem_inv _ _ _ _ Hkeyed Hin) as (d0 & Hd0 & Hk).
    apply uf_key_Ok in Hk as [-> Huf].
    destruct (Map_Ok_elem_inv _ _ _ _ Hdated Hd0) as (dict & Hdict & Ht).
    apply list_elem_of_fmap in Hdict as (line & -> & Hline).
    apply transform_dates_Ok in Ht as (date & Hdate & ->).
    exists line, date. split_and!; [done..| |done].
    by rewrite lookup_insert_ne in Huf.
  - intros (line & date & Hline & Hdate & Huf & ->).
    assert (dengue_dict line ∈ dengue_dict <$> lines) as Hin
      by (apply list_elem_of_fmap; by exists line).
    destruct (Map_Ok_elem _ _ _ _ Hdated Hin) as (d0 & Hd0 & Ht).
    apply transform_dates_Ok in Ht as (date' & Hdate' & ->).
    assert (date' = date) as -> by congruence.
    destruct (Map_Ok_elem _ _ _ _ Hkeyed Hd0) as ([k' d1] & Hd1 & Hk).
    apply uf_key_Ok in Hk as [-> Huf'].
    rewrite lookup_insert_ne in Huf' by done.
    by assert (k' = k) as -> by congruence.
Qed.

Lemma uf_set_casos_set line k :
  dengue_dict line !! "uf"%string = Some k →
  is_Some (dengue_dict line !! "casos"%string).
Proof.
  unfold dengue_dict. intros Huf.
  destruct (list_to_dictionary _ dengue_columns !! "casos"%string) eqn:Hc; [by eexists|].
  apply casos_unset in Hc.
  assert (list_to_dictionary (Str.split_from "|" 0 EmptyString line) dengue_columns
            !! "uf"%string = None) as Hnone by (apply uf_unset; lia).
  congruence.
Qed.

(** X15.  The dengue branch raises nothing but [ValueError] (a measure
    with a digit that [float] rejects), [KeyError] for ['data_iniSE'] or
    [KeyError] for ['uf']; in particular the [TypeError] of [dengue_cases]
    on a record without ['casos'] never comes out of a run. *)
Theorem dengue_raises_only (lines : list string) (e : exn) :
  dengue lines = Raise e →
  e = ValueError ∨ e = KeyError "data_iniSE" ∨ e = KeyError "uf".
Proof.
  rewrite dengue_stages. fold dengue_dict.
  destruct (Beam.Map transform_dates _) as [dated|e1] eqn:Hdated.
  2:{ intros [= <-]. apply Map_raise_elem in Hdated as (d & _ & Hd).
      right. left. by eapply transform_dates_raise. }
  rewrite ret_bind.
  destruct (Beam.Map uf_key dated) as [keyed|e2] eqn:Hkeyed.
  2:{ intros [= <-]. apply Map_raise_elem in Hkeyed as (d & _ & Hd).
      right. right. by eapply uf_key_raise. }
  rewrite ret_bind.
  destruct (Beam.FlatMap dengue_cases _) as [cases|e3] eqn:Hcases; [done|].
  intros [= <-]. left.
  apply FlatMap_Raise in Hcases as ([k data] & Hgroup & Hraise).
  apply elem_of_GroupByKey in Hgroup as [_ ->].
  eapply dengue_cases_raise; [|exact Hraise].
  apply Forall_forall. intros d Hd%elem_of_values_of.
  apply (dengue_keyed _ _ _ Hdated Hkeyed) in Hd
    as (line & date & _ & _ & Huf & ->).
  rewrite lookup_insert_ne by done. by eapply uf_set_casos_set.
Qed.

Lemma dengue_cases_returns uf data :
  Forall casos_ok data ↔ is_raise (exhaust (dengue_cases (uf, data))) = false.
Proof.
  induction data as [|d data IH]; [by split; [|constructor]|].
  cbn [dengue_cases dengue_cases_loop] in *.
  assert (∀ p, is_raise (exhaust (Yield p (dengue_cases_loop uf data)))
               = is_raise (exhaust (dengue_cases_loop uf data))) as Hstep.
  { intros p. cbn [exhaust]. by destruct (exhaust (dengue_cases_loop uf data)). }
  rewrite Forall_cons. unfold casos_ok at 1.
  destruct (d !! "casos"%string) as [casos|].
  - destruct (PyFloat.has_digit casos) eqn:Hd.
    + destruct (PyFloat.of_string casos) as [x|e] eqn:Hx.
      * rewrite Hstep, <-IH. split; [tauto|]. intros H. split; [|done].
        exists casos. by rewrite Hx.
      * simpl. split; [|done]. intros [(c & [= <-] & Hc) _].
        specialize (Hc Hd). by rewrite Hx in Hc.
    + rewrite Hstep, <-IH. split; [tauto|]. intros H. split; [|done].
      exists casos. by rewrite Hd.
  - simpl. split; [|done]. by intros [(c & [=] & _) _].
Qed.

Lemma FlatMap_returns {A B} (f : A → generator B) pc :
  (∀ a, a ∈ pc → is_raise (exhaust (f a)) = false)
  ↔ is_raise (Beam.FlatMap f pc) = false.
Proof.
  rewrite FlatMap_Map. split.
  - intros H. by destruct (Map_returns (fun a => exhaust (f a)) pc H) as [l ->].
  - destruct (Beam.Map _ pc) as [yields|] eqn:Hm; [|done]. intros _ a Ha.
    destruct (Map_Ok_elem _ _ _ _ Hm Ha) as (b & _ & ->). done.
Qed.

(** X16.  The dengue branch returns exactly when every line splits on
    ['|'] into at least six fields (so that ['uf'] is set) and its third
    field, ['casos'], holds no digit or is accepted by [float]. *)
Theorem dengue_succeeds_iff (lines : list string) :
  is_raise (dengue lines) = false
  ↔ ∀ line, line ∈ lines →
      ∃ fields casos,
        text_to_list line "|" = Ok fields
        ∧ (6 <= length fields)%nat
        ∧ fields !! 2%nat = Some casos
        ∧ (PyFloat.has_digit casos = true →
           is_raise (PyFloat.of_string casos) = false).
Proof.
  rewrite dengue_stages. fold dengue_dict. split.
  - destruct (Beam.Map transform_dates _) as [dated|] eqn:Hdated; [|done].
    rewrite ret_bind.
    destruct (Beam.Map uf_key dated) as [keyed|] eqn:Hkeyed; [|done].
    rewrite ret_bind.
    destruct (Beam.FlatMap dengue_cases _) as [cases|] eqn:Hcases; [|done].
    intros _ line Hline.
    assert (dengue_dict line ∈ dengue_dict <$> lines) as Hin
      by (apply list_elem_of_fmap; by exists line).
    destruct (Map_Ok_elem _ _ _ _ Hdated Hin) as (d0 & Hd0 & Ht).
    destruct (Map_Ok_elem _ _ _ _ Hkeyed Hd0) as ([k d1] & Hd1 & Hk).
    apply uf_key_Ok in Hk as [-> Huf].
    apply transform_dates_Ok in Ht as (date & Hdate & ->).
    rewrite lookup_insert_ne in Huf by done.
    assert (is_raise (Beam.FlatMap dengue_cases (Beam.GroupByKey keyed)) = false)
      as Hret by by rewrite Hcases.
    apply FlatMap_returns with (a := (k, Beam.values_of k keyed)) in Hret.
    2:{ apply elem_of_GroupByKey. split; [|done].
        apply list_elem_of_fmap. by eexists (k, _). }
    apply dengue_cases_returns in Hret.
    rewrite Forall_forall in Hret.
    destruct (Hret _ (proj2 (elem_of_values_of _ _ _) Hd1)) as (casos & Hc & Hok).
    rewrite lookup_insert_ne in Hc by done.
    exists (Str.split_from "|" 0 EmptyString line), casos.
    unfold dengue_dict in Hc, Huf.
    rewrite (column_lookup _ "casos" 2) in Hc by done.
    rewrite (column_lookup _ "uf" 5) in Huf by done.
    split_and!; [done| |done..]. apply lookup_lt_Some in Huf. lia.
  - intros Hgood.
    assert (∀ line, line ∈ lines →
              ∃ date k casos,
                dengue_dict line !! "data_iniSE"%string = Some date
                ∧ dengue_dict line !! "uf"%string = Some k
                ∧ dengue_dict line !! "casos"%string = Some casos
                ∧ (PyFloat.has_digit casos = true →
                   is_raise (PyFloat.of_string casos) = false)) as Hrec.
    { intros line (fields & casos & [= <-] & Hlen & Hc & Hok)%Hgood.
      destruct (lookup_lt_is_Some_2 (Str.split_from "|" 0 EmptyString line) 1)
        as [date Hdate]; [lia|].
      destruct (lookup_lt_is_Some_2 (Str.split_from "|" 0 EmptyString line) 5)
        as [k Hk]; [lia|].
      exists date, k, casos. unfold dengue_dict.
      rewrite (column_lookup _ "data_iniSE" 1), (column_lookup _ "uf" 5),
        (column_lookup _ "casos" 2) by done.
      done. }
    destruct (Map_returns transform_dates (dengue_dict <$> lines)) as [dated Hdated].
    { intros d (line & -> & Hline)%list_elem_of_fmap.
      destruct (Hrec line Hline) as (date & _ & _ & Hdate & _).
      unfold transform_dates. by rewrite Hdate. }
    rewrite Hdated, ret_bind.
    destruct (Map_returns uf_key dated) as [keyed Hkeyed].
    { intros d Hd.
      destruct (Map_Ok_elem_inv _ _ _ _ Hdated Hd) as (d0 & Hd0 & Ht).
      apply list_elem_of_fmap in Hd0 as (line & -> & Hline).
      destruct (Hrec line Hline) as (date & k & _ & _ & Huf & _).
      apply transform_dates_Ok in Ht as (? & _ & ->).
      unfold uf_key. by rewrite lookup_insert_ne, Huf. }
    rewrite Hkeyed, ret_bind.
    assert (is_raise (Beam.FlatMap dengue_cases (Beam.GroupByKey keyed)) = false)
      as Hret.
    { apply FlatMap_returns. intros [k data] [_ ->]%elem_of_GroupByKey.
      apply dengue_cases_returns, Forall_forall.
      intros d Hd%elem_of_values_of.
      apply (dengue_keyed _ _ _ Hdated Hkeyed) in Hd
        as (line & date & Hline & _ & _ & ->).
      destruct (Hrec line Hline) as (_ & _ & casos & _ & _ & Hc & Hok).
      exists casos. by rewrite lookup_insert_ne. }
    by destruct (Beam.FlatMap dengue_cases _).
Qed.

(** What a group that is processed yields for each of its records. *)
Lemma dengue_cases_pairs uf data pairs :
  exhaust (dengue_cases (uf, data)) = Ok pairs →
  Forall2 (fun (d : gmap string string) (p : string * float) =>
             p.1 = uf +:+ "-" +:+ format_get (d !! "ano_mes"%string))
    data pairs.
Proof.
  intros H%dengue_cases_Forall2.
  eapply Forall2_impl; [exact H|]. by intros d p (casos & _ & Hk & _).
Qed.

Lemma dengue_Ok lines out :
  dengue lines = Ok out →
  ∃ dated keyed yields,
    Beam.Map transform_dates (dengue_dict <$> lines) = Ok dated
    ∧ Beam.Map uf_key dated = Ok keyed
    ∧ Beam.Map (fun g => exhaust (dengue_cases g)) (Beam.GroupByKey keyed)
      = Ok yields
    ∧ out = Beam.CombinePerKey py_sum (concat yields).
Proof.
  rewrite dengue_stages. fold dengue_dict.
  destruct (Beam.Map transform_dates _) as [dated|] eqn:Hdated; [|done].
  rewrite ret_bind.
  destruct (Beam.Map uf_key dated) as [keyed|] eqn:Hkeyed; [|done].
  rewrite ret_bind.
  destruct (Beam.FlatMap dengue_cases _) as [cases|] eqn:Hcases; [|done].
  rewrite ret_bind. intros [= <-].
  apply FlatMap_Ok in Hcases as (yields & Hyields & ->).
  by exists dated, keyed, yields.
Qed.

Lemma dengue_Ok_keys lines out key :
  dengue lines = Ok out →
  NoDup out.*1
  ∧ (key ∈ out.*1
     ↔ ∃ line date uf,
         line ∈ lines
         ∧ dengue_dict line !! "data_iniSE"%string = Some date
         ∧ dengue_dict line !! "uf"%string = Some uf
         ∧ key = uf +:+ "-" +:+ Str.join "-" (take 2 (Str.split_chr "-" date))).
Proof.
  intros (dated & keyed & yields & Hdated & Hkeyed & Hyields & ->)%dengue_Ok.
  rewrite CombinePerKey_keys. split; [apply NoDup_remove_dups|].
  rewrite elem_of_remove_dups, list_elem_of_fmap. split.
  - intros ([k x] & -> & (pairs & Hpairs & Hp)%elem_of_concat).
    destruct (Map_Ok_elem_inv _ _ _ _ Hyields Hpairs) as ([uf data] & Hg & Hex).
    apply elem_of_GroupByKey in Hg as [_ ->].
    apply dengue_cases_pairs in Hex.
    apply list_elem_of_lookup in Hp as [i Hi].
    destruct (Forall2_lookup_r _ _ _ _ _ Hex Hi) as (d & Hd & Hk).
    apply list_elem_of_lookup_2, elem_of_values_of in Hd.
    apply (dengue_keyed _ _ _ Hdated Hkeyed) in Hd
      as (line & date & Hline & Hdate & Huf & ->).
    rewrite lookup_insert_eq in Hk. exists line, date, uf. by split_and!.
  - intros (line & date & uf & Hline & Hdate & Huf & ->).
    set (d := <["ano_mes"%string := Str.join "-" (take 2 (Str.split_chr "-" date))]>
                (dengue_dict line)).
    assert ((uf, d) ∈ keyed) as Hd
      by (apply (dengue_keyed _ _ _ Hdated Hkeyed); by exists line, date).
    assert ((uf, Beam.values_of uf keyed) ∈ Beam.GroupByKey keyed) as Hg.
    { apply elem_of_GroupByKey. split; [|done].
      apply list_elem_of_fmap. by exists (uf, d). }
    destruct (Map_Ok_elem _ _ _ _ Hyields Hg) as (pairs & Hpairs & Hex).
    apply dengue_cases_pairs in Hex.
    apply elem_of_values_of, list_elem_of_lookup in Hd as [i Hi].
    destruct (Forall2_lookup_l _ _ _ _ _ Hex Hi) as (p & Hp & Hk).
    exists p. split.
    + rewrite Hk. unfold d. by rewrite lookup_insert_eq.
    + apply elem_of_concat. exists pairs. split; [done|].
      by eapply list_elem_of_lookup_2.
Qed.

(** X17.  When the dengue branch returns, its output has each key once,
    and its keys are exactly the keys derived from the sixth field (the
    region) and the first two tokens of the second field (the date) of the
    input lines: the same derivation as on the rain side. *)
Theorem dengue_output_keys (lines : list string) (out : list (string * float)) :
  dengue lines = Ok out →
  NoDup out.*1
  ∧ ∀ key, key ∈ out.*1
      ↔ ∃ line fields date uf,
          line ∈ lines
          ∧ text_to_list line "|" = Ok fields
          ∧ fields !! 1%nat = Some date
          ∧ fields !! 5%nat = Some uf
          ∧ key = uf +:+ "-" +:+ Str.join "-" (take 2 (Str.split_chr "-" date)).
Proof.
  intros Hout. split; [apply (dengue_Ok_keys _ _ EmptyString Hout)|].
  intros key. rewrite (proj2 (dengue_Ok_keys _ _ key Hout)).
  unfold dengue_dict. split.
  - intros (line & date & uf & Hline & Hdate & Huf & ->).
    rewrite (column_lookup _ "data_iniSE" 1) in Hdate by done.
    rewrite (column_lookup _ "uf" 5) in Huf by done.
    by exists line, (Str.split_from "|" 0 EmptyString line), date, uf.
  - intros (line & fields & date & uf & Hline & [= <-] & Hdate & Huf & ->).
    exists line, date, uf.
    rewrite (column_lookup _ "data_iniSE" 1), (column_lookup _ "uf" 5) by done.
    done.
Qed.

(** ** The rows of the report *)

Section Values.
Context {V : Type}.
Implicit Types (pc : list (string * V)) (k : string).

(** With distinct keys, the values of a key are its one value. *)
Lemma values_of_NoDup k v pc :
  NoDup pc.*1 → (k, v) ∈ pc → Beam.values_of k pc = [v].
Proof.
  unfold Beam.values_of. induction pc as [|[k' v'] pc IH]; [by intros _ ?%elem_of_nil|].
  rewrite fmap_cons. intros [Hk' Hnd]%NoDup_cons Hin.
  rewrite filter_cons. simpl in *.
  apply elem_of_cons in Hin as [[= -> ->]|Hin].
  - rewrite decide_True by done. rewrite filter_key_absent by done. done.
  - rewrite decide_False; [by apply IH|].
    intros ->. apply Hk', list_elem_of_fmap. by exists (k, v).
Qed.
End Values.

(** The buckets that the join and the filter leave. *)
Lemma merge_and_filter_buckets (rain_pc dengue_pc : list (string * float))
    buckets b :
  merge_and_filter rain_pc dengue_pc = Ok buckets →
  b ∈ buckets
  ↔ b.1 ∈ rain_pc.*1 ∧ b.1 ∈ dengue_pc.*1
    ∧ b.2 = list_to_map [("rain"%string, Beam.values_of b.1 rain_pc);
                          ("dengue"%string, Beam.values_of b.1 dengue_pc)].
Proof.
  set (both := fun b : string * gmap string (list float) =>
                 b.1 ∈ rain_pc.*1 ∧ b.1 ∈ dengue_pc.*1).
  set (joined := Beam.CoGroupByKey
                   [("rain"%string, rain_pc); ("dengue"%string, dengue_pc)]).
  assert (merge_and_filter rain_pc dengue_pc = Ok (filter both joined)) as Hf.
  { unfold merge_and_filter. apply Filter_decide.
    intros b' (k & -> & _)%list_elem_of_fmap.
    etrans; [apply filter_missing_values_two|]. f_equal.
    apply eq_true_iff_eq.
    rewrite andb_true_iff, !truthy_values_of, bool_decide_eq_true.
    done. }
  rewrite Hf. intros [= <-]. rewrite list_elem_of_filter.
  unfold joined, Beam.CoGroupByKey. rewrite list_elem_of_fmap. split.
  - intros [Hboth (k & -> & _)]. destruct Hboth. by split_and!.
  - intros (Hr & Hd & Hb). split; [done|]. exists b.1. split.
    + destruct b as [k data]. simpl in *. by rewrite Hb.
    + apply elem_of_remove_dups. simpl. rewrite elem_of_app. by left.
Qed.

(** X18.  When the whole pipeline returns, both branches returned, and the
    rows are exactly the rows [uf;year;month;rain;dengue] of the keys
    [uf-year-month] that both branch outputs hold, with the printed rounded
    rain sum and the printed dengue sum of that key. *)
Theorem rain_dengue_rows (rain_lines dengue_lines : list string)
    (rows : list string) :
  rain_dengue rain_lines dengue_lines = Ok rows →
  ∃ rain_pc dengue_pc,
    rain rain_lines = Ok rain_pc
    ∧ dengue dengue_lines = Ok dengue_pc
    ∧ ∀ row, row ∈ rows
        ↔ ∃ key uf year month r d,
            (key, r) ∈ rain_pc
            ∧ (key, d) ∈ dengue_pc
            ∧ Str.split_chr "-" key = [uf; year; month]
            ∧ row = prepare_csv (uf, year, month, PyFloat.repr r, PyFloat.repr d) ";".
Proof.
  unfold rain_dengue.
  destruct (rain rain_lines) as [rain_pc|] eqn:Hrain; [|done]. rewrite ret_bind.
  destruct (dengue dengue_lines) as [dengue_pc|] eqn:Hdengue; [|done].
  rewrite ret_bind.
  destruct (merge_and_filter rain_pc dengue_pc) as [buckets|] eqn:Hm; [|done].
  rewrite ret_bind. intros Hrows%format_rows_Ok.
  exists rain_pc, dengue_pc. split_and!; [done..|].
  assert (NoDup rain_pc.*1) as Hnr by apply (rain_Ok_NoDup _ _ Hrain).
  assert (NoDup dengue_pc.*1) as Hnd
    by apply (dengue_Ok_keys _ _ EmptyString Hdengue).
  assert (∀ b, b ∈ buckets →
            ∃ r d, (b.1, r) ∈ rain_pc ∧ (b.1, d) ∈ dengue_pc
              ∧ b.2 !! "rain"%string = Some [r]
              ∧ b.2 !! "dengue"%string = Some [d]) as Hvals.
  { intros b (Hr & Hd & Hb)%(merge_and_filter_buckets _ _ _ _ Hm).
    apply list_elem_of_fmap in Hr as ([k r] & Hk & Hr).
    apply list_elem_of_fmap in Hd as ([k' d] & Hk' & Hd).
    simpl in Hk, Hk'. subst k k'. exists r, d. split_and!; [done..| |].
    - rewrite Hb. simpl. rewrite lookup_insert_eq.
      by rewrite (values_of_NoDup _ r).
    - rewrite Hb. simpl. rewrite lookup_insert_ne, lookup_insert_eq by done.
      by rewrite (values_of_NoDup _ d). }
  intros row. split.
  - intros [i Hi]%list_elem_of_lookup.
    destruct (Forall2_lookup_r _ _ _ _ _ Hrows Hi) as ([key data] & Hb & t & Ht & ->).
    apply list_elem_of_lookup_2 in Hb.
    destruct (Hvals _ Hb) as (r & d & Hr & Hd & Hdr & Hdd). simpl in *.
    unfold unpack_elements, getitem in Ht. rewrite Hdr, Hdd in Ht.
    destruct (Str.split_chr "-" key) as [|uf [|year [|month [|]]]] eqn:Hs; try done.
    simpl in Ht. injection Ht as <-.
    by exists key, uf, year, month, r, d.
  - intros (key & uf & year & month & r & d & Hr & Hd & Hs & ->).
    assert ((key, list_to_map [("rain"%string, Beam.values_of key rain_pc);
                               ("dengue"%string, Beam.values_of key dengue_pc)])
            ∈ buckets) as Hb.
    { apply (merge_and_filter_buckets _ _ _ _ Hm). simpl. split_and!; [| |done].
      - apply list_elem_of_fmap. by exists (key, r).
      - apply list_elem_of_fmap. by exists (key, d). }
    apply list_elem_of_lookup in Hb as [i Hi].
    destruct (Forall2_lookup_l _ _ _ _ _ Hrows Hi) as (row & Hrow & t & Ht & ->).
    apply list_elem_of_lookup_2 in Hrow.
    unfold unpack_elements, getitem in Ht. rewrite Hs in Ht. simpl in Ht.
    rewrite lookup_insert_eq in Ht. rewrite ret_bind in Ht.
    rewrite (values_of_NoDup _ r) in Ht by done. simpl in Ht.
    rewrite lookup_insert_ne, lookup_insert_eq in Ht by done.
    rewrite (values_of_NoDup _ d) in Ht by done. simpl in Ht.
    by injection Ht as <-.
Qed.

(** X10.  The three tokens that [unpack_elements] returns, joined by ['-'],
    give back the key of the bucket. *)
Theorem unpack_key_round_trip (key uf year month rainfall cases : string)
    (data : gmap string (list float)) :
  unpack_elements (key, data) = Ok (uf, year, month, rainfall, cases) →
  Str.join "-" [uf; year; month] = key.
Proof.
  unfold unpack_elements.
  destruct (Str.split_chr "-" key) as [|a [|b [|c [|]]]] eqn:Hs; try done.
  intros H.
  assert (a = uf ∧ b = year ∧ c = month) as (-> & -> & ->).
  { unfold getitem, first in H.
    destruct (data !! "rain"%string) as [[|]|]; try done;
      destruct (data !! "dengue"%string) as [[|]|]; try done.
    simpl in H. by injection H as -> -> -> _ _. }
  rewrite <-Hs. apply join_split_chr.
Qed.

Lemma unpack_key_round_trip_witness :
  Str.join "-" ["SP"; "2015"; "03"]%string = "SP-2015-03"%string.
Proof.
  apply (unpack_key_round_trip "SP-2015-03" "SP" "2015" "03" "5.5" "10.0"
           (list_to_map [("rain"%string, [float_5_5]);
                         ("dengue"%string, [float_10])])).
  by vm_compute.
Defined.

(** X11.  A rain record and a dengue record with the same region and the
    same date get the same composite key, whatever the date looks like. *)
Theorem same_key_both_sources (date rainfall uf key key' : string)
    (x y : float) (d d' : gmap string string) (g : generator (string * float)) :
  rain_key_uf_year_month [date; rainfall; uf] = Ok (key, x) →
  d !! "uf"%string = Some uf →
  d !! "data_iniSE"%string = Some date →
  transform_dates d = Ok d' →
  dengue_cases (uf, [d']) = Yield (key', y) g →
  uf_key d' = Ok (uf, d') ∧ key' = key.
Proof.
  intros (? & ? & ? & [= <- <- <-] & _ & ->)%rain_key_Ok Huf Hdate.
  intros (date' & Hdate' & ->)%transform_dates_Ok.
  assert (date' = date) as -> by congruence.
  cbn [dengue_cases dengue_cases_loop]. rewrite lookup_insert_eq.
  cbn [format_get]. intros H. split.
  - unfold uf_key. by rewrite lookup_insert_ne, Huf.
  - destruct (_ !! "casos"%string) as [casos|]; [|done].
    destruct (PyFloat.has_digit casos).
    + destruct (PyFloat.of_string casos); [|done]. by injection H as <- _ _.
    + by injection H as <- _ _.
Qed.

Lemma same_key_both_sources_witness :
  uf_key (sample_record "10") = Ok ("SP"%string, sample_record "10")
  ∧ "SP-2015-03"%string = "SP-2015-03"%string.
Proof.
  assert (dengue_dict "1|2015-03-10|10|3550308|Sao Paulo|SP|01000|0|0"
            !! "uf"%string = Some "SP"%string) as Huf by reflexivity.
  assert (dengue_dict "1|2015-03-10|10|3550308|Sao Paulo|SP|01000|0|0"
            !! "data_iniSE"%string = Some "2015-03-10"%string) as Hdate
    by reflexivity.
  apply (same_key_both_sources "2015-03-10" "5.5" "SP" "SP-2015-03" "SP-2015-03"
           float_5_5 float_10 _ (sample_record "10") Return eq_refl Huf Hdate).
  - by vm_compute.
  - by vm_compute.
Defined.

(** X13.  The rain branch raises nothing but [ValueError], from the key
    derivation, or [OverflowError], from the rounding. *)
Theorem rain_raises_only (lines : list string) (e : exn) :
  rain lines = Raise e → e = ValueError ∨ e = OverflowError.
Proof.
  rewrite rain_stages.
  destruct (Beam.Map rain_key_uf_year_month _) as [keyed|e1] eqn:Hkeyed.
  - rewrite ret_bind. intros (a & _ & Ha)%Map_raise_elem.
    right. by eapply round_rainfall_raise.
  - intros [= <-]. apply Map_raise_elem in Hkeyed as (a & _ & Ha).
    left. by eapply rain_key_raise.
Qed.

Lemma rain_raises_only_witness :
  ValueError = ValueError ∨ ValueError = OverflowError.
Proof.
  apply (rain_raises_only ["2015-03-05,abc,SP"%string]). by vm_compute.
Defined.

Lemma filter_then_unpack_witness :
  ∃ r rs d ds,
    (list_to_map [("rain"%string, [float_5_5]); ("dengue"%string, [float_10])]
       : gmap string (list float)) !! "rain"%string = Some (r :: rs)
    ∧ (list_to_map [("rain"%string, [float_5_5]); ("dengue"%string, [float_10])]
         : gmap string (list float)) !! "dengue"%string = Some (d :: ds)
    ∧ unpack_elements
        ("SP-2015"%string,
         list_to_map [("rain"%string, [float_5_5]); ("dengue"%string, [float_10])])
      = match Str.split_chr "-" "SP-2015" with
        | [uf; year; month] => Ok (uf, year, month, PyFloat.repr r, PyFloat.repr d)
        | _ => Raise ValueError
        end.
Proof.
  apply (filter_then_unpack "SP-2015"). by vm_compute.
Defined.

Lemma rain_output_keys_witness :
  NoDup [("SP-2015-03"%string, float_5_5)].*1.
Proof.
  apply (rain_output_keys ["2015-03-05,5.5,SP"%string]). by vm_compute.
Defined.

Lemma dengue_raises_only_witness :
  KeyError "uf" = ValueError ∨ KeyError "uf" = KeyError "data_iniSE"
  ∨ KeyError "uf" = KeyError "uf".
Proof.
  apply (dengue_raises_only ["1|2015-03-10"%string]). by vm_compute.
Defined.

Lemma dengue_output_keys_witness :
  NoDup [("SP-2015-03"%string, float_10)].*1.
Proof.
  apply (dengue_output_keys
           ["1|2015-03-10|10|3550308|Sao Paulo|SP|01000|0|0"%string]).
  by vm_compute.
Defined.

Lemma rain_dengue_rows_witness :
  ∃ rain_pc dengue_pc,
    rain ["2015-03-05,5.5,SP"%string] = Ok rain_pc
    ∧ dengue ["1|2015-03-10|10|3550308|Sao Paulo|SP|01000|0|0"%string]
      = Ok dengue_pc
    ∧ ∀ row, row ∈ ["SP;2015;03;5.5;10.0"%string]
        ↔ ∃ key uf year month r d,
            (key, r) ∈ rain_pc
            ∧ (key, d) ∈ dengue_pc
            ∧ Str.split_chr "-" key = [uf; year; month]
            ∧ row = prepare_csv (uf, year, month, PyFloat.repr r, PyFloat.repr d) ";".
Proof.
  apply (rain_dengue_rows ["2015-03-05,5.5,SP"%string]
           ["1|2015-03-10|10|3550308|Sao Paulo|SP|01000|0|0"%string]).
  by vm_compute.
Defined.

(** ** The join, row by row *)

(** The join followed by the completeness filter always returns. *)
Lemma merge_and_filter_returns (rain_pc dengue_pc : list (string * float)) :
  ∃ buckets, merge_and_filter rain_pc dengue_pc = Ok buckets.
Proof.
  unfold merge_and_filter. eexists. apply Filter_decide
    with (P := fun b => b.1 ∈ rain_pc.*1 ∧ b.1 ∈ dengue_pc.*1).
  intros b' (k & -> & _)%list_elem_of_fmap.
  etrans; [apply filter_missing_values_two|]. f_equal.
  apply eq_true_iff_eq.
  rewrite andb_true_iff, !truthy_values_of, bool_decide_eq_true.
  done.
Qed.

(** The buckets it returns have distinct keys. *)
Lemma merge_and_filter_NoDup (rain_pc dengue_pc : list (string * float)) buckets :
  merge_and_filter rain_pc dengue_pc = Ok buckets → NoDup buckets.*1.
Proof.
  set (both := fun b : string * gmap string (list float) =>
                 b.1 ∈ rain_pc.*1 ∧ b.1 ∈ dengue_pc.*1).
  set (joined := Beam.CoGroupByKey
                   [("rain"%string, rain_pc); ("dengue"%string, dengue_pc)]).
  assert (merge_and_filter rain_pc dengue_pc = Ok (filter both joined)) as Hf.
  { unfold merge_and_filter. apply Filter_decide.
    intros b' (k & -> & _)%list_elem_of_fmap.
    etrans; [apply filter_missing_values_two|]. f_equal.
    apply eq_true_iff_eq.
    rewrite andb_true_iff, !truthy_values_of, bool_decide_eq_true.
    done. }
  rewrite Hf. intros [= <-]. apply filter_keys_NoDup.
  unfold joined, Beam.CoGroupByKey. rewrite <-list_fmap_compose.
  rewrite list_fmap_id. apply NoDup_remove_dups.
Qed.

(** What [unpack_elements] does on a bucket of the join of two collections
    with distinct keys: it raises [ValueError] unless the key has three
    tokens, and otherwise returns them with the two printed values. *)
Lemma unpack_bucket (rain_pc dengue_pc : list (string * float)) buckets b :
  NoDup rain_pc.*1 → NoDup dengue_pc.*1 →
  merge_and_filter rain_pc dengue_pc = Ok buckets →
  b ∈ buckets →
  ∃ r d, (b.1, r) ∈ rain_pc ∧ (b.1, d) ∈ dengue_pc
    ∧ unpack_elements b
      = match Str.split_chr "-" b.1 with
        | [uf; year; month] => Ok (uf, year, month, PyFloat.repr r, PyFloat.repr d)
        | _ => Raise ValueError
        end.
Proof.
  intros Hnr Hnd Hm (Hr & Hd & Hb)%(merge_and_filter_buckets _ _ _ _ Hm).
  apply list_elem_of_fmap in Hr as ([k r] & Hk & Hr).
  apply list_elem_of_fmap in Hd as ([k' d] & Hk' & Hd).
  destruct b as [key data]. cbn [fst snd] in *. subst k k' data.
  exists r, d. split; [done|]. split; [done|].
  unfold unpack_elements, getitem.
  destruct (Str.split_chr "-" key) as [|uf [|year [|month [|]]]]; try done.
  simpl. rewrite lookup_insert_eq, ret_bind.
  rewrite (values_of_NoDup _ r) by done. simpl.
  rewrite lookup_insert_ne, lookup_insert_eq, ret_bind by done.
  by rewrite (values_of_NoDup _ d).
Qed.

(** C3, as stated, fails.  The key [SP-2015-03] is in the output of both
    branches, and so is the key [SP-2015], which comes from a date without
    a month and has two tokens only: [unpack_elements] raises [ValueError]
    on it, the run ends there, and [SP-2015-03] stands in no output row. *)
Lemma two_token_key_counterexample :
  rain ["2015-03-05,5.5,SP"; "2015,1.0,SP"]%string
  = Ok [("SP-2015-03"%string, float_5_5);
        ("SP-2015"%string, S754_finite false 4503599627370496 (-52))]
  ∧ dengue ["1|2015-03-10|10|3550308|Sao Paulo|SP|01000|0|0";
            "1|2015|10|3550308|Sao Paulo|SP|01000|0|0"]%string
    = Ok [("SP-2015-03"%string, float_10); ("SP-2015"%string, float_10)]
  ∧ rain_dengue ["2015-03-05,5.5,SP"; "2015,1.0,SP"]%string
      ["1|2015-03-10|10|3550308|Sao Paulo|SP|01000|0|0";
       "1|2015|10|3550308|Sao Paulo|SP|01000|0|0"]%string
    = Raise ValueError
  ∧ rain_dengue ["2015-03-05,5.5,SP"]%string
      ["1|2015-03-10|10|3550308|Sao Paulo|SP|01000|0|0"]%string
    = Ok ["SP;2015;03;5.5;10.0"%string].
Proof. by vm_compute. Qed.

(** C3, amended.  For every run in which both branches return, the join
    and the completeness filter return buckets with distinct keys, the
    keys being exactly those that both branch outputs hold: a key of one
    source only has no bucket, a key of both has exactly one.  When every
    key of both sources splits on ['-'] into three tokens, the run returns
    one row for each bucket, in order, and the row of a bucket is made of
    the three tokens of its key and of the printed values of that key in
    the two branch outputs: so a key of both sources stands in exactly one
    row and a key of one source in none.  When some key of both sources
    does not split into three tokens, the run raises [ValueError] and has
    no output row at all. *)
Theorem inner_join_rows (rain_lines dengue_lines : list string)
    (rain_pc dengue_pc : list (string * float)) :
  rain rain_lines = Ok rain_pc →
  dengue dengue_lines = Ok dengue_pc →
  ∃ buckets,
    merge_and_filter rain_pc dengue_pc = Ok buckets
    ∧ NoDup buckets.*1
    ∧ (∀ key, key ∈ buckets.*1 ↔ key ∈ rain_pc.*1 ∧ key ∈ dengue_pc.*1)
    ∧ (∀ key, key ∈ rain_pc.*1 → key ∈ dengue_pc.*1 →
              length (filter (fun b => b.1 = key) buckets) = 1%nat)
    ∧ ((∀ key, key ∈ rain_pc.*1 → key ∈ dengue_pc.*1 →
               length (Str.split_chr "-" key) = 3%nat) →
       ∃ rows, rain_dengue rain_lines dengue_lines = Ok rows
               ∧ Forall2 (row_of rain_pc dengue_pc) buckets rows)
    ∧ ((∃ key, key ∈ rain_pc.*1 ∧ key ∈ dengue_pc.*1
               ∧ length (Str.split_chr "-" key) ≠ 3%nat) →
       rain_dengue rain_lines dengue_lines = Raise ValueError).
Proof.
  intros Hrain Hdengue.
  assert (NoDup rain_pc.*1) as Hnr by apply (rain_Ok_NoDup _ _ Hrain).
  assert (NoDup dengue_pc.*1) as Hnd
    by apply (dengue_Ok_keys _ _ EmptyString Hdengue).
  destruct (merge_and_filter_returns rain_pc dengue_pc) as [buckets Hm].
  assert (∀ key, key ∈ buckets.*1 ↔ key ∈ rain_pc.*1 ∧ key ∈ dengue_pc.*1)
    as Hkeys.
  { intros key. rewrite list_elem_of_fmap. split.
    - intros (b & -> & (Hr & Hd & _)%(merge_and_filter_buckets _ _ _ _ Hm)).
      done.
    - intros [Hr Hd].
      exists (key, list_to_map [("rain"%string, Beam.values_of key rain_pc);
                                ("dengue"%string, Beam.values_of key dengue_pc)]).
      split; [done|].
      apply (merge_and_filter_buckets _ _ _ _ Hm). by split_and!. }
  assert (NoDup buckets.*1) as Hnb by by eapply merge_and_filter_NoDup.
  assert (rain_dengue rain_lines dengue_lines = format_rows buckets) as Hrd.
  { unfold rain_dengue. by rewrite Hrain, ret_bind, Hdengue, ret_bind, Hm. }
  exists buckets. split_and!; [done|done|done| | |].
  - intros key Hr Hd. apply count_key_NoDup; [done|]. by apply Hkeys.
  - intros Hthree. rewrite Hrd. unfold format_rows.
    destruct (Map_returns unpack_elements buckets) as [ts Hts].
    { intros b Hb.
      destruct (unpack_bucket _ _ _ _ Hnr Hnd Hm Hb) as (r & d & Hr & Hd & ->).
      assert (length (Str.split_chr "-" b.1) = 3%nat) as Hlen.
      { apply Hthree; apply list_elem_of_fmap; by eexists (_, _). }
      by destruct (Str.split_chr "-" b.1) as [|uf [|year [|month [|]]]]. }
    rewrite Hts, ret_bind, Map_pure. eexists. split; [done|].
    apply Forall2_fmap_r. apply Map_Ok in Hts.
    apply Forall2_same_length_lookup. split; [by eapply Forall2_length|].
    intros i b t Hb Ht.
    destruct (Forall2_lookup_l _ _ _ _ _ Hts Hb) as (t' & Ht' & Hu).
    assert (t' = t) as -> by congruence.
    apply list_elem_of_lookup_2 in Hb.
    destruct (unpack_bucket _ _ _ _ Hnr Hnd Hm Hb) as (r & d & Hr & Hd & Hun).
    rewrite Hun in Hu.
    destruct (Str.split_chr "-" b.1) as [|uf [|year [|month [|]]]] eqn:Hs; try done.
    injection Hu as <-. by exists uf, year, month, r, d.
  - intros (key & Hr & Hd & Hlen). rewrite Hrd. unfold format_rows.
    assert (key ∈ buckets.*1) as ([k data] & -> & Hb)%list_elem_of_fmap
      by by apply Hkeys.
    assert (is_raise (Beam.Map unpack_elements buckets) = true) as Hraise.
    { apply Map_raise with (a := (k, data)); [done|].
      by rewrite (proj1 (unpack_elements_tokens k data) Hlen). }
    destruct (Beam.Map unpack_elements buckets) as [|e] eqn:Hmap; [done|].
    apply Map_raise_elem in Hmap as (b & Hb' & Hun').
    destruct (unpack_bucket _ _ _ _ Hnr Hnd Hm Hb') as (r & d & _ & _ & Hun).
    rewrite Hun in Hun'.
    destruct (Str.split_chr "-" b.1) as [|uf [|year [|month [|]]]];
      try done; by injection Hun' as <-.
Qed.

Lemma inner_join_rows_witness :
  ∃ buckets,
    merge_and_filter
      [("SP-2015-03"%string, float_5_5); ("SP-2015-04"%string, PyFloat.zero)]
      [("SP-2015-03"%string, float_10)]
    = Ok buckets
    ∧ NoDup buckets.*1
    ∧ (∀ key, key ∈ buckets.*1
              ↔ key ∈ [("SP-2015-03"%string, float_5_5);
                       ("SP-2015-04"%string, PyFloat.zero)].*1
                ∧ key ∈ [("SP-2015-03"%string, float_10)].*1).
Proof.
  destruct (inner_join_rows
              ["2015-03-05,5.5,SP"; "2015-04-01,-3.0,SP"]%string
              ["1|2015-03-10|10|3550308|Sao Paulo|SP|01000|0|0"%string]
              [("SP-2015-03"%string, float_5_5);
               ("SP-2015-04"%string, PyFloat.zero)]
              [("SP-2015-03"%string, float_10)])
    as (buckets & Hm & Hnd & Hkeys & _).
  - vm_compute. reflexivity.
  - vm_compute. reflexivity.
  - exists buckets. split; [exact Hm|]. split; [exact Hnd|exact Hkeys].
Defined.

(** ** Rounding of the rain sums *)

(** [div_half_even n d] is an integer nearest to [n / d], the even one of
    the two when [n / d] lies half-way between two integers. *)
Lemma div_half_even_nearest n d :
  0 < d →
  Z.abs (2 * n - 2 * PyFloat.div_half_even n d * d) <= d
  ∧ (Z.abs (2 * n - 2 * PyFloat.div_half_even n d * d) = d →
     Z.even (PyFloat.div_half_even n d) = true).
Proof.
  intros Hd. unfold PyFloat.div_half_even.
  pose proof (Z.div_mod n d ltac:(lia)) as Hdiv.
  pose proof (Z.mod_pos_bound n d Hd) as Hmod.
  destruct (Z.compare_spec (2 * (n mod d)) d) as [Heq|Hlt|Hgt].
  - destruct (Z.even (n / d)) eqn:Hev.
    + split; [|done]. nia.
    + split; [nia|]. intros _. rewrite Z.even_add, Hev. done.
  - split; [nia|]. intros H. nia.
  - split; [nia|]. intros H. nia.
Qed.

(** The pairs of a per-key combination: one for each key, holding the
    combination of the values of that key. *)
Lemma elem_of_CombinePerKey {V W} (f : list V → W) (pc : list (string * V)) k w :
  (k, w) ∈ Beam.CombinePerKey f pc ↔ k ∈ pc.*1 ∧ w = f (Beam.values_of k pc).
Proof.
  unfold Beam.CombinePerKey. rewrite list_elem_of_fmap. split.
  - intros ([k' vs] & [= -> ->] & Hin%elem_of_GroupByKey). simpl.
    destruct Hin as [Hin ->]. done.
  - intros [Hin ->]. exists (k, Beam.values_of k pc). split; [done|].
    by apply elem_of_GroupByKey.
Qed.

(** C5.  For every run of the rain branch that returns, the output holds
    one pair for each key of the keyed records and no other: the value of
    a key is [round(total, 6)], where [total] is the binary64 sum, from
    [0.0] and in the order of the records, of all the values of that key,
    so the rounding comes after the summation.  [round(x, 6)] of a finite
    [x] is the float read from [n * 10^-6], where [n] is the integer nearest
    to [x * 10^6], the even one on a tie; infinities, NaN and zeros are
    returned as they are.  The sum [12.3456789] is rounded to the float that
    prints as [12.345679], and so it appears in the output row; the values
    [0.1], [0.2] and [0.3] of one key sum to [0.6000000000000001] and leave
    the branch as [0.6]. *)
Theorem rain_sum_rounded :
  (∀ lines out,
     rain lines = Ok out →
     ∃ keyed,
       Beam.Map rain_key_uf_year_month (Str.split_from "," 0 EmptyString <$> lines)
       = Ok keyed
       ∧ NoDup out.*1
       ∧ ∀ key r,
           (key, r) ∈ out
           ↔ key ∈ keyed.*1
             ∧ PyFloat.round
                 (fold_left (SFadd 53 1024)
                    (filter (fun kv => kv.1 = key) keyed).*2 (S754_zero false))
                 6
               = Ok r)
  ∧ (∀ key s m e r,
       round_rainfall (key, S754_finite s m e) = Ok (key, r) →
       let num := Zpos m * 2 ^ Z.max e 0 * 10 ^ 6 in
       let den := 2 ^ Z.max (- e) 0 in
       ∃ n : Z,
         r = PyFloat.decimal_to_float s n (-6)
         ∧ Z.abs (2 * num - 2 * n * den) <= den
         ∧ (Z.abs (2 * num - 2 * n * den) = den → Z.even n = true))
  ∧ (∀ key x,
       (∀ s m e, x ≠ S754_finite s m e) → round_rainfall (key, x) = Ok (key, x))
  ∧ (∀ key, ∃ x r,
       PyFloat.of_string "12.3456789" = Ok x
       ∧ round_rainfall (key, x) = Ok (key, r)
       ∧ PyFloat.repr r = "12.345679"%string)
  ∧ rain_dengue ["2015-04-02,12.3456789,SP"%string]
                ["3|2015-04-20|7|3550308|Sao Paulo|SP|01000|0|0"%string]
    = Ok ["SP;2015;04;12.345679;7.0"%string]
  ∧ (∃ x1 x2 x3 r,
       PyFloat.of_string "0.1" = Ok x1
       ∧ PyFloat.of_string "0.2" = Ok x2
       ∧ PyFloat.of_string "0.3" = Ok x3
       ∧ PyFloat.repr (fold_left (SFadd 53 1024) [x1; x2; x3] (S754_zero false))
         = "0.6000000000000001"%string
       ∧ rain ["2015-04-01,0.1,SP"; "2015-04-02,0.2,SP"; "2015-04-03,0.3,SP"]%string
         = Ok [("SP-2015-04"%string, r)]
       ∧ PyFloat.repr r = "0.6"%string).
Proof.
  split_and!.
  - intros lines out Hrain.
    assert (NoDup out.*1) as Hnd by apply (rain_Ok_NoDup _ _ Hrain).
    revert Hrain. rewrite rain_stages.
    destruct (Beam.Map rain_key_uf_year_month _) as [keyed|]; [|done].
    rewrite ret_bind. intros Hout%Map_Ok. exists keyed.
    split; [done|]. split; [done|].
    intros key r.
    change (fold_left (SFadd 53 1024) ?vs (S754_zero false)) with (py_sum vs).
    change ((filter (fun kv : string * float => kv.1 = key) keyed).*2)
      with (Beam.values_of key keyed).
    split.
    + intros [i Hi]%list_elem_of_lookup.
      destruct (Forall2_lookup_r _ _ _ _ _ Hout Hi) as ([k s] & Hs & Hr).
      apply round_rainfall_Ok in Hr as [-> Hr].
      apply list_elem_of_lookup_2, elem_of_CombinePerKey in Hs as [Hk ->].
      done.
    + intros [Hk Hr].
      assert ((key, py_sum (Beam.values_of key keyed))
              ∈ Beam.CombinePerKey py_sum keyed) as [i Hi]%list_elem_of_lookup
        by by apply elem_of_CombinePerKey.
      destruct (Forall2_lookup_l _ _ _ _ _ Hout Hi) as ([k' r'] & Hr' & Hrr).
      apply round_rainfall_Ok in Hrr as [-> Hrr].
      assert (r' = r) as -> by congruence.
      by eapply list_elem_of_lookup_2.
  - intros key s m e r [_ H]%round_rainfall_Ok num den.
    unfold PyFloat.round in H.
    change (PyFloat.NDIGITS_MAX <? 6) with false in H.
    change (6 <? PyFloat.NDIGITS_MIN) with false in H. cbv iota in H.
    change (Z.max 6 0) with 6 in H. change (Z.max (- (6)) 0) with 0 in H.
    change (10 ^ 0) with 1 in H. rewrite Z.mul_1_r in H.
    change (- (6)) with (-6) in H. fold num den in H.
    exists (PyFloat.div_half_even num den).
    assert (0 < den) as Hden by (apply Z.pow_pos_nonneg; lia).
    split; [|apply div_half_even_nearest; done].
    by destruct (PyFloat.decimal_to_float s _ (-6)); simplify_eq.
  - intros key x Hx. unfold round_rainfall, PyFloat.round.
    destruct x as [| | |s m e]; try done. by destruct (Hx s m e).
  - intros key. eexists _, _. split_and!; [by vm_compute| |].
    + unfold round_rainfall.
      match goal with |- context [PyFloat.round ?x 6] =>
        let v := eval vm_compute in (PyFloat.round x 6) in
        change (PyFloat.round x 6) with v end.
      reflexivity.
    + by vm_compute.
  - by vm_compute.
  - exists (S754_finite false 7205759403792794 (-56)),
           (S754_finite false 7205759403792794 (-55)),
           (S754_finite false 5404319552844595 (-54)),
           (S754_finite false 5404319552844595 (-53)).
    split_and!; vm_compute; reflexivity.
Qed.

Lemma rain_sum_rounded_witness :
  ∃ keyed,
    Beam.Map rain_key_uf_year_month
      (Str.split_from "," 0 EmptyString
         <$> ["2015-04-01,-3.0,SP"; "2015-04-02,12.3456789,SP"]%string)
    = Ok keyed
    ∧ NoDup [("SP-2015-04"%string, S754_finite false 6949999418004470 (-49))].*1
    ∧ ∀ key r,
        (key, r) ∈ [("SP-2015-04"%string, S754_finite false 6949999418004470 (-49))]
        ↔ key ∈ keyed.*1
          ∧ PyFloat.round
              (fold_left (SFadd 53 1024)
                 (filter (fun kv => kv.1 = key) keyed).*2 (S754_zero false))
              6
            = Ok r.
Proof.
  exact (proj1 rain_sum_rounded
           ["2015-04-01,-3.0,SP"; "2015-04-02,12.3456789,SP"]%string
           [("SP-2015-04"%string, S754_finite false 6949999418004470 (-49))]
           ltac:(vm_compute; reflexivity)).
Defined.
